(** * File reference resolution and download delivery of the client portal

    A shallow embedding of the file page of [src/pages/Auth.tsx] (the
    [Files] component): the type normalisation done in [fetchFiles], the
    storage-path extraction [extractStoragePath] and the download handler
    [handleDownload], followed by the properties of these functions.

    Conventions.
    - JavaScript strings are modelled as [string] (sequences of bytes, a
      non-ASCII character being its UTF-8 bytes); [toLowerCase] is the ASCII
      case mapping.
    - [undefined] is [None]; the truthiness of a string is non-emptiness.
    - A computation that may throw returns a [Completion]; effects that
      happened before a throw are kept, as in JavaScript. *)

From Stdlib Require Import String Ascii List ZArith NArith Bool Lia.
Import ListNotations.
Local Open Scope string_scope.
Local Open Scope list_scope.

(* ===================================================================== *)
(** ** JavaScript string and array primitives used by the page *)
(* ===================================================================== *)

Module Js.

(** [s.startsWith(p)] *)
Definition startsWith (p s : string) : bool := String.prefix p s.

(** [s.includes(c)] for a one-character needle. *)
Fixpoint includes (c : ascii) (s : string) : bool :=
  match s with
  | EmptyString => false
  | String d rest => if Ascii.eqb d c then true else includes c rest
  end.

(** [s.split(c)] for a one-character separator: never the empty array. *)
Fixpoint split (c : ascii) (s : string) : list string :=
  match s with
  | EmptyString => [EmptyString]
  | String d rest =>
      if Ascii.eqb d c then EmptyString :: split c rest
      else match split c rest with
           | [] => [String d EmptyString]
           | hd :: tl => String d hd :: tl
           end
  end.

(** [parts.join(c)] *)
Fixpoint join (c : ascii) (parts : list string) : string :=
  match parts with
  | [] => EmptyString
  | [p] => p
  | p :: rest => p ++ String c (join c rest)
  end.

(** [parts.pop()]: the last element, [undefined] on the empty array. *)
Fixpoint pop (parts : list string) : option string :=
  match parts with
  | [] => None
  | [p] => Some p
  | _ :: rest => pop rest
  end.

(** [parts.indexOf(x)]: the first index holding [x], or [-1]. *)
Fixpoint indexOf (x : string) (parts : list string) : Z :=
  match parts with
  | [] => (-1)%Z
  | p :: rest =>
      if String.eqb p x then 0%Z
      else let i := indexOf x rest in
           if (i =? -1)%Z then (-1)%Z else (i + 1)%Z
  end.

(** [parts.slice(i)] for [0 <= i]. *)
Definition slice (i : Z) (parts : list string) : list string :=
  skipn (Z.to_nat i) parts.

(** [parts[i]] *)
Definition at_index (parts : list string) (i : Z) : option string :=
  if (i <? 0)%Z then None else nth_error parts (Z.to_nat i).

Definition lower_char (c : ascii) : ascii :=
  let n := N_of_ascii c in
  if ((65 <=? n) && (n <=? 90))%N then ascii_of_N (n + 32) else c.

(** [s.toLowerCase()] *)
Fixpoint toLowerCase (s : string) : string :=
  match s with
  | EmptyString => EmptyString
  | String c rest => String (lower_char c) (toLowerCase rest)
  end.

(** Truthiness of a possibly undefined string. *)
Definition truthy (v : option string) : bool :=
  match v with
  | Some (String _ _) => true
  | _ => false
  end.

(** [a || b] on possibly undefined strings. *)
Definition or (a b : option string) : option string :=
  if truthy a then a else b.

(** [a || 'literal'], whose value is always a string. *)
Definition or_else (a : option string) (d : string) : string :=
  match a with
  | Some (String c r) => String c r
  | _ => d
  end.

End Js.

(* ===================================================================== *)
(** ** Type normalisation ([fetchFiles], the callback of [data.map]) *)
(* ===================================================================== *)

Record FileRecord := mkFile {
  file_id : string;
  file_name : string;
  file_path : string;
  file_type : string;
  file_description : string
}.

(** The object literal [mimeToExt], in source order. *)
Definition mimeToExt : list (string * string) :=
  [ ("image/png", "png");
    ("image/jpeg", "jpg");
    ("image/jpg", "jpg");
    ("image/gif", "gif");
    ("image/svg+xml", "svg");
    ("application/pdf", "pdf");
    ("application/vnd.openxmlformats-officedocument.wordprocessingml.document", "docx");
    ("application/vnd.openxmlformats-officedocument.spreadsheetml.sheet", "xlsx");
    ("application/vnd.openxmlformats-officedocument.presentationml.presentation", "pptx");
    ("text/plain", "txt");
    ("video/mp4", "mp4");
    ("video/avi", "avi");
    ("video/mov", "mov");
    ("audio/mp3", "mp3");
    ("audio/wav", "wav");
    ("application/zip", "zip");
    ("application/x-rar-compressed", "rar") ].

(** [obj[key]] on an object literal: the value of the property, or
    [undefined].  No inherited property of a plain object has a name that
    contains '/', the only keys this table is asked for. *)
Fixpoint lookup (key : string) (obj : list (string * string)) : option string :=
  match obj with
  | [] => None
  | (k, v) :: rest => if String.eqb k key then Some v else lookup key rest
  end.

(** The body of the [map] callback of [fetchFiles]: the type tag computed
    from [file.type] and [file.name].  A [null] type behaves as the empty
    string, both being falsy. *)
Definition classify (typeMetadata fileName : string) : string :=
  let fileType := typeMetadata in
  let fileType :=
    if Js.truthy (Some fileType) && Js.includes "/" fileType then
      Js.or_else
        (Js.or (lookup fileType mimeToExt)
               (Js.at_index (Js.split "/" fileType) 1))
        "file"
    else fileType in
  if negb (Js.truthy (Some fileType)) || String.eqb fileType "file" then
    let extension := option_map Js.toLowerCase (Js.pop (Js.split "." fileName)) in
    Js.or_else extension "file"
  else fileType.

(** [processedFiles]: every record with its type replaced by the tag. *)
Definition processFile (file : FileRecord) : FileRecord :=
  {| file_id := file_id file;
     file_name := file_name file;
     file_path := file_path file;
     file_type := classify (file_type file) (file_name file);
     file_description := file_description file |}.

Definition processedFiles (data : list FileRecord) : list FileRecord :=
  map processFile data.

(* ===================================================================== *)
(** ** Completions: normal results and thrown errors *)
(* ===================================================================== *)

Inductive JsError :=
| TypeError (msg : string)
| URIError (msg : string)
| DOMException (msg : string)
| Error (msg : string).

Inductive Completion (A : Type) :=
| Normal (a : A)
| Throw (e : JsError).
Arguments Normal {A} a.
Arguments Throw {A} e.

Definition of_option {A} (e : JsError) (o : option A) : Completion A :=
  match o with
  | Some a => Normal a
  | None => Throw e
  end.

(** [try { body } catch (e) { handler(e) }] for pure computations. *)
Definition try_pure {A} (body : Completion A) (handler : JsError -> Completion A)
  : Completion A :=
  match body with
  | Normal a => Normal a
  | Throw e => handler e
  end.

Definition bind_pure {A B} (m : Completion A) (k : A -> Completion B)
  : Completion B :=
  match m with
  | Normal a => k a
  | Throw e => Throw e
  end.

(* ===================================================================== *)
(** ** The platform functions [decodeURIComponent] and [new URL] *)
(* ===================================================================== *)

Module Uri.

Definition hex_digit (c : ascii) : option N :=
  let n := N_of_ascii c in
  if ((48 <=? n) && (n <=? 57))%N then Some (n - 48)%N
  else if ((65 <=? n) && (n <=? 70))%N then Some (n - 55)%N
  else if ((97 <=? n) && (n <=? 102))%N then Some (n - 87)%N
  else None.

(** A character of the input: itself, or an escape [%XY] with its octet. *)
Inductive Token :=
| Lit (c : ascii)
| Esc (octet : N).

(** Reading the escapes; [None] when a '%' is not followed by two
    hexadecimal digits. *)
Fixpoint tokens (s : string) : option (list Token) :=
  match s with
  | EmptyString => Some []
  | String c rest =>
      if Ascii.eqb c "%" then
        match rest with
        | String h (String l rest') =>
            match hex_digit h, hex_digit l with
            | Some a, Some b => option_map (cons (Esc (16 * a + b))) (tokens rest')
            | _, _ => None
            end
        | _ => None
        end
      else option_map (cons (Lit c)) (tokens rest)
  end.

(** The first octet of a UTF-8 sequence: how many continuation octets
    follow and the range allowed for the first of them. *)
Definition lead (b : N) : option (nat * N * N) :=
  if (b <? 128)%N then Some (0%nat, 0%N, 0%N)
  else if ((194 <=? b) && (b <=? 223))%N then Some (1%nat, 128%N, 191%N)
  else if (b =? 224)%N then Some (2%nat, 160%N, 191%N)
  else if ((225 <=? b) && (b <=? 236))%N then Some (2%nat, 128%N, 191%N)
  else if (b =? 237)%N then Some (2%nat, 128%N, 159%N)
  else if ((238 <=? b) && (b <=? 239))%N then Some (2%nat, 128%N, 191%N)
  else if (b =? 240)%N then Some (3%nat, 144%N, 191%N)
  else if ((241 <=? b) && (b <=? 243))%N then Some (3%nat, 128%N, 191%N)
  else if (b =? 244)%N then Some (3%nat, 128%N, 143%N)
  else None.

(** Decoding the tokens: escaped octets must form well-formed UTF-8, and a
    sequence that has started is continued by escapes only. *)
Fixpoint octets (need : nat) (lo hi : N) (ts : list Token) : option string :=
  match ts with
  | [] => match need with O => Some EmptyString | S _ => None end
  | Lit c :: ts' =>
      match need with
      | O => option_map (String c) (octets O 0 0 ts')
      | S _ => None
      end
  | Esc b :: ts' =>
      match need with
      | O =>
          match lead b with
          | Some (n, lo', hi') =>
              option_map (String (ascii_of_N b)) (octets n lo' hi' ts')
          | None => None
          end
      | S n =>
          if ((lo <=? b) && (b <=? hi))%N
          then option_map (String (ascii_of_N b)) (octets n 128 191 ts')
          else None
      end
  end.

(** [decodeURIComponent(s)]; a malformed input throws [URIError]. *)
Definition decodeURIComponent (s : string) : Completion string :=
  match tokens s with
  | Some ts => of_option (URIError "URI malformed") (octets O 0 0 ts)
  | None => Throw (URIError "URI malformed")
  end.

Definition is_alpha (c : ascii) : bool :=
  let n := N_of_ascii c in
  (((65 <=? n) && (n <=? 90)) || ((97 <=? n) && (n <=? 122)))%N.

Definition is_digit (c : ascii) : bool :=
  let n := N_of_ascii c in ((48 <=? n) && (n <=? 57))%N.

Definition is_scheme_char (c : ascii) : bool :=
  is_alpha c || is_digit c || Ascii.eqb c "+" || Ascii.eqb c "-" || Ascii.eqb c ".".

(** The URL parser first drops leading C0 controls and spaces ... *)
Fixpoint strip_leading (s : string) : string :=
  match s with
  | EmptyString => EmptyString
  | String c rest =>
      if (N_of_ascii c <=? 32)%N then strip_leading rest else s
  end.

(** ... and every tab and newline. *)
Fixpoint remove_tab_newline (s : string) : string :=
  match s with
  | EmptyString => EmptyString
  | String c rest =>
      let n := N_of_ascii c in
      if ((n =? 9) || (n =? 10) || (n =? 13))%N then remove_tab_newline rest
      else String c (remove_tab_newline rest)
  end.

(** The scheme state of the parser: scheme characters up to a ':'. *)
Fixpoint scheme_state (s : string) : bool :=
  match s with
  | EmptyString => false
  | String c rest =>
      if Ascii.eqb c ":" then true
      else if is_scheme_char c then scheme_state rest
      else false
  end.

(** The scheme start state: a letter, then the scheme state. *)
Definition has_scheme (s : string) : bool :=
  match remove_tab_newline (strip_leading s) with
  | EmptyString => false
  | String c rest => is_alpha c && scheme_state rest
  end.

End Uri.

Record URL := mkURL { pathname : string }.

Section PathResolver.

(** The rest of the platform's URL parser, past the scheme: the [pathname]
    of the parsed URL, or [None] when parsing fails. *)
Variable url_pathname : string -> option string.

(** [new URL(s)]: without a base URL, an input with no scheme is a
    failure ([TypeError]); with a scheme the parser decides. *)
Definition new_URL (s : string) : Completion URL :=
  if Uri.has_scheme s then
    of_option (TypeError "Invalid URL") (option_map mkURL (url_pathname s))
  else Throw (TypeError "Invalid URL").

(** [extractStoragePath].  The [console.log] calls, which neither throw
    nor change the result, are left out. *)
Definition extractStoragePath (filePath : string) : Completion string :=
  if negb (Js.startsWith "http" filePath) then Normal filePath
  else
    try_pure
      (bind_pure (new_URL filePath) (fun url =>
         let pathParts := Js.split "/" (pathname url) in
         let bucketIndex := Js.indexOf "student-files" pathParts in
         if negb (bucketIndex =? -1)%Z
            && (bucketIndex <? Z.of_nat (length pathParts) - 1)%Z
         then
           let storagePath :=
             Js.join "/" (Js.slice (bucketIndex + 1) pathParts) in
           Uri.decodeURIComponent storagePath
         else
           let lastPart :=
             Js.at_index pathParts (Z.of_nat (length pathParts) - 1) in
           Uri.decodeURIComponent
             (match lastPart with Some p => p | None => "undefined" end)))
      (fun error => Normal filePath).

End PathResolver.

(** A reference parser for plain URLs [scheme://host/segments?query#frag]
    whose path has only unreserved ASCII characters and no dot segments:
    on these the platform's [pathname] is the text from the first '/'
    after the host up to '?' or '#' ("/" when that text is empty). *)
Module PlainUrl.

Fixpoint after_scheme (s : string) : option string :=
  match s with
  | EmptyString => None
  | String c rest =>
      if Ascii.eqb c ":" then
        match rest with
        | String "/" (String "/" rest') => Some rest'
        | _ => None
        end
      else after_scheme rest
  end.

Fixpoint skip_host (s : string) : string :=
  match s with
  | EmptyString => EmptyString
  | String c rest =>
      if Ascii.eqb c "/" || Ascii.eqb c "?" || Ascii.eqb c "#" then s
      else skip_host rest
  end.

Fixpoint until_query (s : string) : string :=
  match s with
  | EmptyString => EmptyString
  | String c rest =>
      if Ascii.eqb c "?" || Ascii.eqb c "#" then EmptyString
      else String c (until_query rest)
  end.

Definition pathname (s : string) : option string :=
  match after_scheme s with
  | None => None
  | Some rest =>
      match rest with
      | EmptyString => None
      | String c _ =>
          if Ascii.eqb c "/" || Ascii.eqb c "?" || Ascii.eqb c "#" then None
          else match until_query (skip_host rest) with
               | EmptyString => Some "/"
               | p => Some p
               end
      end
  end.

End PlainUrl.

(* ===================================================================== *)
(** ** The browser, the injected capabilities and the [JS] monad *)
(* ===================================================================== *)

(** An [<a>] element made by [document.createElement('a')]. *)
Record Anchor := mkAnchor {
  node : nat;
  href : string;
  download : string;
  display : string;
  target : string;
  rel : string
}.

(** The two callbacks handed to [setTimeout]. *)
Inductive Timer :=
| RemoveAnchor (a : Anchor)
| RemoveAnchorAndRevoke (a : Anchor) (blobUrl : string).

(** What the handler changes in the page: the children it appended to
    [document.body], the object URLs created and not yet revoked, the
    pending timers with their delays, and the next fresh node. *)
Record Browser := mkBrowser {
  body : list Anchor;
  objectURLs : list string;
  timers : list (Timer * Z);
  next_node : nat
}.

(** Calls that leave the page, in the order they are made. *)
Inductive Event :=
| CreateSignedUrl (bucket path : string) (expiresIn : Z)
| GetPublicUrl (bucket path : string)
| Fetch (url : string)
| ReadBlob (url : string)
| Click (a : Anchor)
| WindowOpen (url target features : string)
| ConsoleLog (msg : string)
| ConsoleError (msg : string).

(** The answer of [createSignedUrl]: [{ data, error }] with exactly one of
    the two set. *)
Inductive SignedUrlResult :=
| SignedUrl (signedUrl : string)
| SignError (message : string).

Record Response := mkResponse {
  ok : bool;
  status : Z;
  blob : Completion string
}.

(** The capabilities the handler consumes.  A [Throw] is a call that throws
    or a promise that rejects. *)
Record Platform := mkPlatform {
  createSignedUrl : string -> string -> Z -> Completion SignedUrlResult;
  getPublicUrl : string -> string -> Completion string;
  fetch : string -> Completion Response;
  createObjectURL : string -> string;
  click : Anchor -> Completion unit;
  window_open : string -> string -> string -> Completion unit;
  url_pathname : string -> option string
}.

Record Run (A : Type) := mkRun {
  completion : Completion A;
  browser : Browser;
  events : list Event
}.
Arguments mkRun {A} completion browser events.
Arguments completion {A} r.
Arguments browser {A} r.
Arguments events {A} r.

(** State, trace and exceptions; a throw keeps the state and the trace. *)
Definition JS (A : Type) : Type := Browser -> Run A.

Definition ret {A} (a : A) : JS A := fun b => mkRun (Normal a) b [].

Definition throw {A} (e : JsError) : JS A := fun b => mkRun (Throw e) b [].

Definition bind {A B} (m : JS A) (k : A -> JS B) : JS B :=
  fun b =>
    match m b with
    | mkRun (Normal a) b1 t1 =>
        match k a b1 with
        | mkRun c b2 t2 => mkRun c b2 (t1 ++ t2)
        end
    | mkRun (Throw e) b1 t1 => mkRun (Throw e) b1 t1
    end.

(** [try { body } catch (e) { handler(e) }] *)
Definition try_catch {A} (body : JS A) (handler : JsError -> JS A) : JS A :=
  fun b =>
    match body b with
    | mkRun (Normal a) b1 t1 => mkRun (Normal a) b1 t1
    | mkRun (Throw e) b1 t1 =>
        match handler e b1 with
        | mkRun c b2 t2 => mkRun c b2 (t1 ++ t2)
        end
    end.

Definition lift {A} (c : Completion A) : JS A := fun b => mkRun c b [].

(** A call of a platform capability: recorded, then answered. *)
Definition call {A} (ev : Event) (answer : Completion A) : JS A :=
  fun b => mkRun answer b [ev].

Definition modify (f : Browser -> Browser) : JS unit :=
  fun b => mkRun (Normal tt) (f b) [].

Declare Scope js_scope.
Delimit Scope js_scope with js.
Notation "x <- m ;; k" := (bind m (fun x => k))
  (at level 61, m at next level, right associativity) : js_scope.
Notation "m ;; k" := (bind m (fun _ => k))
  (at level 61, right associativity) : js_scope.
Local Open Scope js_scope.

Definition console_log (msg : string) : JS unit := call (ConsoleLog msg) (Normal tt).
Definition console_error (msg : string) : JS unit := call (ConsoleError msg) (Normal tt).

(** [document.createElement('a')]: a fresh element with empty properties. *)
Definition createElement_a : JS Anchor :=
  fun b =>
    mkRun (Normal (mkAnchor (next_node b) "" "" "" "" ""))
          (mkBrowser (body b) (objectURLs b) (timers b) (S (next_node b)))
          [].

Definition set_href (v : string) (a : Anchor) : Anchor :=
  mkAnchor (node a) v (download a) (display a) (target a) (rel a).
Definition set_download (v : string) (a : Anchor) : Anchor :=
  mkAnchor (node a) (href a) v (display a) (target a) (rel a).
Definition set_display (v : string) (a : Anchor) : Anchor :=
  mkAnchor (node a) (href a) (download a) v (target a) (rel a).
Definition set_target (v : string) (a : Anchor) : Anchor :=
  mkAnchor (node a) (href a) (download a) (display a) v (rel a).
Definition set_rel (v : string) (a : Anchor) : Anchor :=
  mkAnchor (node a) (href a) (download a) (display a) (target a) v.

(** [document.body.appendChild(a)] *)
Definition appendChild (a : Anchor) : JS unit :=
  modify (fun b => mkBrowser (body b ++ [a]) (objectURLs b) (timers b) (next_node b)).

Definition is_node (n : nat) (a : Anchor) : bool := Nat.eqb (node a) n.

(** [document.body.removeChild(a)]: [NotFoundError] when [a] is not a
    child of the body. *)
Definition removeChild (a : Anchor) : JS unit :=
  fun b =>
    if existsb (is_node (node a)) (body b) then
      mkRun (Normal tt)
            (mkBrowser (filter (fun c => negb (is_node (node a) c)) (body b))
                       (objectURLs b) (timers b) (next_node b))
            []
    else mkRun (Throw (DOMException "NotFoundError")) b [].

(** [setTimeout(callback, ms)] *)
Definition setTimeout (t : Timer) (ms : Z) : JS unit :=
  modify (fun b => mkBrowser (body b) (objectURLs b) (timers b ++ [(t, ms)]) (next_node b)).

(** Removing the first occurrence of an object URL. *)
Fixpoint revoke (u : string) (l : list string) : list string :=
  match l with
  | [] => []
  | v :: rest => if String.eqb v u then rest else v :: revoke u rest
  end.

(** [URL.revokeObjectURL(u)]; revoking an unknown URL does nothing. *)
Definition revokeObjectURL (u : string) : JS unit :=
  modify (fun b => mkBrowser (body b) (revoke u (objectURLs b)) (timers b) (next_node b)).

Section Download.

Variable P : Platform.

(** [URL.createObjectURL(blob)]: the new URL is pending until revoked. *)
Definition URL_createObjectURL (blob : string) : JS string :=
  fun b =>
    let u := createObjectURL P blob in
    mkRun (Normal u)
          (mkBrowser (body b) (u :: objectURLs b) (timers b) (next_node b))
          [].

(** The body of the inner [try] of [handleDownload]: fetch the signed
    URL, read the body as a blob and save it through a blob URL. *)
Definition fetchAndSave (signedUrl name : string) : JS unit :=
  response <- call (Fetch signedUrl) (fetch P signedUrl) ;;
  (if negb (ok response) then throw (Error "HTTP error! status") else ret tt) ;;
  blob <- call (ReadBlob signedUrl) (blob response) ;;
  blobUrl <- URL_createObjectURL blob ;;
  a <- createElement_a ;;
  let a := set_href blobUrl a in
  let a := set_download name a in
  let a := set_display "none" a in
  appendChild a ;;
  call (Click a) (click P a) ;;
  setTimeout (RemoveAnchorAndRevoke a blobUrl) 100 ;;
  console_log "Download completed successfully".

(** The public-URL branch of [handleDownload]: an anchor on the URL
    itself, with [download], [target] and [rel] set. *)
Definition directLink (publicUrl name : string) : JS unit :=
  a <- createElement_a ;;
  let a := set_href publicUrl a in
  let a := set_download name a in
  let a := set_display "none" a in
  let a := set_target "_blank" a in
  let a := set_rel "noopener noreferrer" a in
  appendChild a ;;
  call (Click a) (click P a) ;;
  setTimeout (RemoveAnchor a) 100.

(** [handleDownload].  The status number of the HTTP error message and
    the second arguments of the console calls are left out. *)
Definition handleDownload (file : FileRecord) : JS unit :=
  try_catch
    (storagePath <- lift (extractStoragePath (url_pathname P) (file_path file)) ;;
     console_log "Downloading from storage path:" ;;
     r <- call (CreateSignedUrl "student-files" storagePath 300)
               (createSignedUrl P "student-files" storagePath 300) ;;
     match r with
     | SignError error =>
         console_error "Error creating download URL:" ;;
         publicUrl <- call (GetPublicUrl "student-files" storagePath)
                           (getPublicUrl P "student-files" storagePath) ;;
         if Js.truthy (Some publicUrl) then directLink publicUrl (file_name file)
         else ret tt
     | SignedUrl signedUrl =>
         try_catch
           (fetchAndSave signedUrl (file_name file))
           (fun fetchError =>
              console_error "Fetch failed, trying direct link:" ;;
              call (WindowOpen signedUrl "_blank" "noopener,noreferrer")
                   (window_open P signedUrl "_blank" "noopener,noreferrer"))
     end)
    (fun error => console_error "Download failed:").

End Download.

(** One timer callback, run as a task of its own. *)
Definition run_timer (t : Timer) : JS unit :=
  match t with
  | RemoveAnchor a => removeChild a
  | RemoveAnchorAndRevoke a blobUrl => removeChild a ;; revokeObjectURL blobUrl
  end.

(** Running the given timers in order; an exception thrown by a callback
    ends that callback only. *)
Fixpoint run_timers (ts : list (Timer * Z)) (b : Browser) : Browser :=
  match ts with
  | [] => b
  | (t, _) :: rest => run_timers rest (browser (run_timer t b))
  end.

(** The page once every pending timer has fired. *)
Definition flush_timers (b : Browser) : Browser :=
  run_timers (timers b)
             (mkBrowser (body b) (objectURLs b) [] (next_node b)).

Definition empty_page : Browser := mkBrowser [] [] [] 0.

(** The anchor built by the streamed fetch and the one built for the
    direct link, on a page whose next fresh node is [next_node b]. *)
Definition blob_anchor (b : Browser) (blobUrl name : string) : Anchor :=
  mkAnchor (next_node b) blobUrl name "none" "" "".

Definition link_anchor (b : Browser) (url name : string) : Anchor :=
  mkAnchor (next_node b) url name "none" "_blank" "noopener noreferrer".

(** The page [b] with one more anchor, more object URLs and more timers. *)
Definition page_with (b : Browser) (a : Anchor) (urls : list string)
           (ts : list (Timer * Z)) : Browser :=
  mkBrowser (body b ++ [a]) (urls ++ objectURLs b) (timers b ++ ts)
            (S (next_node b)).

(* ===================================================================== *)
(** ** Delivery strategies as seen in a trace *)
(* ===================================================================== *)

Inductive Strategy :=
| StreamedFetch    (* strategy 1: fetch, then save through a blob URL *)
| DirectLink       (* strategy 2: save-as on the URL itself *)
| NewContext.      (* strategy 3: the URL opened in a new context *)

(** The event that starts an attempt of a strategy.  The click on a
    blob-URL anchor is the saving step of strategy 1, not a new attempt;
    the direct link is the anchor that carries [target = "_blank"]. *)
Definition starts (ev : Event) : option Strategy :=
  match ev with
  | Fetch _ => Some StreamedFetch
  | Click a => if String.eqb (target a) "_blank" then Some DirectLink else None
  | WindowOpen _ _ _ => Some NewContext
  | _ => None
  end.

Fixpoint attempts (t : list Event) : list Strategy :=
  match t with
  | [] => []
  | ev :: rest =>
      match starts ev with
      | Some s => s :: attempts rest
      | None => attempts rest
      end
  end.

(** The events of the delivery proper: everything but the requests for an
    access URL and the console. *)
Definition is_delivery (ev : Event) : bool :=
  match ev with
  | Fetch _ | ReadBlob _ | Click _ | WindowOpen _ _ _ => true
  | _ => false
  end.

Definition delivery (t : list Event) : list Event := filter is_delivery t.

(* ===================================================================== *)
(** ** The specified behaviour, for comparison with the code *)
(* ===================================================================== *)

(** The segments that follow the first occurrence of the marker. *)
Fixpoint after_marker (marker : string) (parts : list string) : option (list string) :=
  match parts with
  | [] => None
  | p :: rest => if String.eqb p marker then Some rest else after_marker marker rest
  end.

(** The canonical key of a parsed URL as the specification words it: when
    the marker is found, every path segment after it, joined and decoded;
    when it is absent, the final path segment, decoded. *)
Definition specified_key (path : string) : Completion string :=
  let parts := Js.split "/" path in
  match after_marker "student-files" parts with
  | Some rest => Uri.decodeURIComponent (Js.join "/" rest)
  | None =>
      Uri.decodeURIComponent
        (match Js.pop parts with Some p => p | None => EmptyString end)
  end.

(** The text after the first separator. *)
Fixpoint after_first (c : ascii) (s : string) : string :=
  match s with
  | EmptyString => EmptyString
  | String d rest => if Ascii.eqb d c then rest else after_first c rest
  end.

(** The outcomes the specification names, read off a platform. *)
Section Outcomes.

Variable P : Platform.
Variable file : FileRecord.

Definition storagePath_is (path : string) : Prop :=
  extractStoragePath (url_pathname P) (file_path file) = Normal path.



End Outcomes.


(** C1 as stated: the new-context strategy is never the attempt that
    follows the streamed fetch. *)
Definition new_context_not_after_fetch (t : list Strategy) : Prop :=
  forall before rest, t <> before ++ StreamedFetch :: NewContext :: rest.

(** C2 as stated: two platforms that differ only in where the access URL
    comes from -- signed on the first, public after a signing error on the
    second -- deliver in the same way. *)
Definition delivery_independent_of_grant_source : Prop :=
  forall (P1 P2 : Platform) (file : FileRecord) (b : Browser)
         (path grantUrl message : string),
    storagePath_is P1 file path ->
    storagePath_is P2 file path ->
    createSignedUrl P1 "student-files" path 300 = Normal (SignedUrl grantUrl) ->
    createSignedUrl P2 "student-files" path 300 = Normal (SignError message) ->
    getPublicUrl P2 "student-files" path = Normal grantUrl ->
    fetch P1 = fetch P2 ->
    createObjectURL P1 = createObjectURL P2 ->
    click P1 = click P2 ->
    window_open P1 = window_open P2 ->
    delivery (events (handleDownload P1 file b))
    = delivery (events (handleDownload P2 file b)).

(** Sample platforms and a sample record. *)
Module Sample.

Definition report : FileRecord :=
  mkFile "f-1" "report.pdf" "u-1/report.pdf" "application/pdf" "".

Definition grant (path : string) : string :=
  ("https://store.example/student-files/" ++ path)%string.

Definition pdf : Response := mkResponse true 200 (Normal "%PDF-1.7").

Definition blocked {A} : Completion A := Throw (Error "blocked").

(** Everything works. *)
Definition healthy : Platform :=
  mkPlatform (fun _ path _ => Normal (SignedUrl (grant path)))
             (fun _ path => Normal (grant path))
             (fun _ => Normal pdf)
             (fun _ => "blob:7f3c")
             (fun _ => Normal tt)
             (fun _ _ _ => Normal tt)
             PlainUrl.pathname.

(** Signing answers with an error; the bucket is public. *)
Definition signing_down : Platform :=
  mkPlatform (fun _ _ _ => Normal (SignError "Object not found"))
             (getPublicUrl healthy) (fetch healthy) (createObjectURL healthy)
             (click healthy) (window_open healthy) (url_pathname healthy).


(** The retrieval request fails. *)
Definition fetch_blocked : Platform :=
  mkPlatform (createSignedUrl healthy) (getPublicUrl healthy)
             (fun _ => Throw (TypeError "Failed to fetch"))
             (createObjectURL healthy)
             (click healthy) (window_open healthy) (url_pathname healthy).

(** The retrieval succeeds; saving and opening a new context both fail. *)
Definition save_blocked : Platform :=
  mkPlatform (createSignedUrl healthy) (getPublicUrl healthy)
             (fetch healthy) (createObjectURL healthy)
             (fun _ => blocked) (fun _ _ _ => blocked) (url_pathname healthy).

End Sample.

(* ===================================================================== *)
(** ** The rest of the file page: search, type filter, icons *)
(* ===================================================================== *)

Module JsString.

(** [s.includes(needle)] for a string needle. *)
Fixpoint includes (needle s : string) : bool :=
  String.prefix needle s
  || match s with
     | EmptyString => false
     | String _ rest => includes needle rest
     end.

Definition upper_char (c : ascii) : ascii :=
  let n := N_of_ascii c in
  if ((97 <=? n) && (n <=? 122))%N then ascii_of_N (n - 32) else c.

(** [s.toUpperCase()] *)
Fixpoint toUpperCase (s : string) : string :=
  match s with
  | EmptyString => EmptyString
  | String c rest => String (upper_char c) (toUpperCase rest)
  end.

(** [set.add(x)] on a set kept in insertion order. *)
Definition Set_add (set : list string) (x : string) : list string :=
  if existsb (String.eqb x) set then set else set ++ [x].

(** [[...new Set(values)]] *)
Definition new_Set (values : list string) : list string :=
  fold_left Set_add values [].

End JsString.

(** The predicate of the first [filter] of [filterFiles]. *)
Definition matches_search (searchTerm : string) (file : FileRecord) : bool :=
  JsString.includes (Js.toLowerCase searchTerm) (Js.toLowerCase (file_name file))
  || (Js.truthy (Some (file_description file))
      && JsString.includes (Js.toLowerCase searchTerm)
                           (Js.toLowerCase (file_description file))).

(** [filterFiles]: the value handed to [setFilteredFiles], from the state
    [files], [searchTerm] and [selectedType].  A [null] description
    behaves as the empty one. *)
Definition filterFiles (files : list FileRecord) (searchTerm selectedType : string)
  : list FileRecord :=
  let filtered := files in
  let filtered :=
    if Js.truthy (Some searchTerm)
    then filter (matches_search searchTerm) filtered
    else filtered in
  let filtered :=
    if negb (String.eqb selectedType "all")
    then filter (fun file => String.eqb (file_type file) selectedType) filtered
    else filtered in
  filtered.

(** The icon components of [getFileIcon]. *)
Inductive Icon :=
| FileTextIcon
| ImageIcon
| MusicIcon
| VideoIcon
| ArchiveIcon
| FileIcon.

Definition case_of (labels : list string) (v : string) : bool :=
  existsb (String.eqb v) labels.

(** [getFileIcon]: the [switch] on [type.toLowerCase()]. *)
Definition getFileIcon (type : string) : Icon :=
  let v := Js.toLowerCase type in
  if case_of ["pdf"; "doc"; "docx"; "txt"] v then FileTextIcon
  else if case_of ["jpg"; "jpeg"; "png"; "gif"; "svg"] v then ImageIcon
  else if case_of ["mp3"; "wav"; "flac"] v then MusicIcon
  else if case_of ["mp4"; "avi"; "mov"] v then VideoIcon
  else if case_of ["zip"; "rar"; "7z"] v then ArchiveIcon
  else FileIcon.

(** [uniqueTypes]: the options of the type selector. *)
Definition uniqueTypes (files : list FileRecord) : list string :=
  "all" :: JsString.new_Set (map file_type files).

(** The label of an option of the type selector. *)
Definition optionLabel (type : string) : string :=
  if String.eqb type "all" then "All Types" else JsString.toUpperCase type.

(** Every anchor of the body was made before the next fresh node. *)
Definition fresh_nodes (b : Browser) : Prop :=
  Forall (fun a => node a < next_node b) (body b).

(** The requests for an access URL. *)
Definition is_access_request (ev : Event) : bool :=
  match ev with
  | CreateSignedUrl _ _ _ | GetPublicUrl _ _ => true
  | _ => false
  end.

(** More sample platforms. *)
Module Faulty.

(** Signing answers with an error, the bucket is public, the click on the
    direct link throws. *)
Definition link_blocked : Platform :=
  mkPlatform (createSignedUrl Sample.signing_down)
             (getPublicUrl Sample.signing_down)
             (fetch Sample.healthy) (createObjectURL Sample.healthy)
             (fun _ => Sample.blocked)
             (window_open Sample.healthy) (url_pathname Sample.healthy).

(** The signing request throws. *)
Definition signing_rejected : Platform :=
  mkPlatform (fun _ _ _ => Sample.blocked)
             (getPublicUrl Sample.healthy) (fetch Sample.healthy)
             (createObjectURL Sample.healthy) (click Sample.healthy)
             (window_open Sample.healthy) (url_pathname Sample.healthy).

End Faulty.

(* ===================================================================== *)
(** ** The sign-in page and the admin pages *)
(* ===================================================================== *)

(** What these pages do outside their own state. *)
Inductive UiEvent :=
| PreventDefault
| ToastSuccess (msg : string)
| ToastError (msg : string)
| ConsoleErr (msg : string)
| InvalidateQueries (queryKey : list string)
| SignInWithPassword (email password : string)
| ResetPasswordForEmail (email redirectTo : string)
| GetSession
| DeleteUserRequest (access_token userId : string)
| ReadJson
| InsertCourseAssignment (user_id course_id : string) (locked : bool).

(** [error.message] *)
Definition message (e : JsError) : string :=
  match e with
  | TypeError m | URIError m | DOMException m | Error m => m
  end.

(** Handlers over a component state [S]: state, events and exceptions. *)
Definition UI (S A : Type) : Type := S -> Completion A * S * list UiEvent.

Module Ui.

Definition ret {S A} (a : A) : UI S A := fun s => (Normal a, s, []).

Definition throw {S A} (e : JsError) : UI S A := fun s => (Throw e, s, []).

Definition bind {S A B} (m : UI S A) (k : A -> UI S B) : UI S B :=
  fun s =>
    match m s with
    | (Normal a, s1, t1) =>
        match k a s1 with
        | (c, s2, t2) => (c, s2, t1 ++ t2)
        end
    | (Throw e, s1, t1) => (Throw e, s1, t1)
    end.

(** [try { body } catch (e) { handler(e) }] *)
Definition try_catch {S A} (body : UI S A) (handler : JsError -> UI S A) : UI S A :=
  fun s =>
    match body s with
    | (Normal a, s1, t1) => (Normal a, s1, t1)
    | (Throw e, s1, t1) =>
        match handler e s1 with
        | (c, s2, t2) => (c, s2, t1 ++ t2)
        end
    end.

(** [try { body } finally { final }], for a [final] that does not throw:
    it runs on every exit of [body], a [return] included. *)
Definition try_finally {S A} (body : UI S A) (final : UI S unit) : UI S A :=
  fun s =>
    match body s with
    | (c, s1, t1) =>
        match final s1 with
        | (_, s2, t2) => (c, s2, t1 ++ t2)
        end
    end.

(** A call that leaves the component: recorded, then answered. *)
Definition call {S A} (ev : UiEvent) (answer : Completion A) : UI S A :=
  fun s => (answer, s, [ev]).

Definition emit {S} (ev : UiEvent) : UI S unit := call ev (Normal tt).

(** A state setter. *)
Definition set {S} (f : S -> S) : UI S unit := fun s => (Normal tt, f s, []).

(** [mutate(variables)] of a mutation: [mutationFn], then [onSuccess] or
    [onError]. *)
Definition mutate {S A} (mutationFn : UI S A) (onSuccess : UI S unit)
           (onError : JsError -> UI S unit) : UI S unit :=
  fun s =>
    match mutationFn s with
    | (Normal _, s1, t1) =>
        match onSuccess s1 with
        | (c, s2, t2) => (c, s2, t1 ++ t2)
        end
    | (Throw e, s1, t1) =>
        match onError e s1 with
        | (c, s2, t2) => (c, s2, t1 ++ t2)
        end
    end.

End Ui.

Declare Scope ui_scope.
Delimit Scope ui_scope with ui.
Notation "x <- m ;; k" := (Ui.bind m (fun x => k))
  (at level 61, m at next level, right associativity) : ui_scope.
Notation "m ;; k" := (Ui.bind m (fun _ => k))
  (at level 61, right associativity) : ui_scope.

(** *** [Auth]: sign-in and password reset *)

Record AuthState := mkAuthState {
  isLoading : bool;
  resetEmailSent : bool
}.

(** The answers of the authentication service: [{ error }] with the
    message of the error, or a rejected promise. *)
Record AuthApi := mkAuthApi {
  signInWithPassword : string -> string -> Completion (option string);
  resetPasswordForEmail : string -> string -> Completion (option string);
  origin : string
}.

Definition setIsLoading (v : bool) : UI AuthState unit :=
  Ui.set (fun s => mkAuthState v (resetEmailSent s)).

Definition setResetEmailSent (v : bool) : UI AuthState unit :=
  Ui.set (fun s => mkAuthState (isLoading s) v).

(** [handleSignIn] *)
Definition handleSignIn (api : AuthApi) (email password : string) : UI AuthState unit :=
  (Ui.emit PreventDefault ;;
   setIsLoading true ;;
   Ui.try_finally
     (Ui.try_catch
        (error <- Ui.call (SignInWithPassword email password)
                          (signInWithPassword api email password) ;;
         match error with
         | Some msg =>
             if JsString.includes "Invalid login credentials" msg
             then Ui.emit (ToastError
                    "Invalid email or password. Please check your credentials.")
             else Ui.emit (ToastError msg)
         | None => Ui.emit (ToastSuccess "Welcome back!")
         end)
        (fun _ => Ui.emit (ToastError
                    "An unexpected error occurred. Please try again.")))
     (setIsLoading false))%ui.

(** [handleForgotPassword] *)
Definition handleForgotPassword (api : AuthApi) (email : string) : UI AuthState unit :=
  (Ui.emit PreventDefault ;;
   setIsLoading true ;;
   Ui.try_finally
     (Ui.try_catch
        (error <- Ui.call
                    (ResetPasswordForEmail email (origin api ++ "/auth?reset=true"))
                    (resetPasswordForEmail api email
                                           (origin api ++ "/auth?reset=true")) ;;
         match error with
         | Some msg => Ui.emit (ToastError msg)
         | None =>
             setResetEmailSent true ;;
             Ui.emit (ToastSuccess "Password reset email sent! Check your inbox.")
         end)
        (fun _ => Ui.emit (ToastError
                    "An unexpected error occurred. Please try again.")))
     (setIsLoading false))%ui.

Definition is_toast (ev : UiEvent) : bool :=
  match ev with
  | ToastSuccess _ | ToastError _ => true
  | _ => false
  end.

(** *** [AdminStudents]: search, badges and the delete dialog *)

Record Student := mkStudent {
  student_id : string;
  student_name : option string;
  student_email : option string;
  student_organization : option string
}.

(** [field?.toLowerCase().includes(searchTerm.toLowerCase())]: undefined,
    hence falsy, for a [null] field. *)
Definition field_includes (searchTerm : string) (field : option string) : bool :=
  match field with
  | Some v => JsString.includes (Js.toLowerCase searchTerm) (Js.toLowerCase v)
  | None => false
  end.

(** [filteredStudents]; [None] while [students] is undefined. *)
Definition filteredStudents (students : option (list Student)) (searchTerm : string)
  : option (list Student) :=
  option_map
    (filter (fun student =>
               field_includes searchTerm (student_name student)
               || field_includes searchTerm (student_email student)
               || field_includes searchTerm (student_organization student)))
    students.

(** A row of [user_services] or [user_course_assignments] with the title
    of the joined service or course. *)
Record AssignmentRow := mkRow {
  row_user_id : string;
  row_title : option string
}.

(** [getStudentServices] and [getStudentCourses] *)
Definition getStudentServices (studentServices : option (list AssignmentRow))
           (studentId : string) : list AssignmentRow :=
  match studentServices with
  | Some rows => filter (fun service => String.eqb (row_user_id service) studentId) rows
  | None => []
  end.

Definition getStudentCourses (studentCourses : option (list AssignmentRow))
           (studentId : string) : list AssignmentRow :=
  match studentCourses with
  | Some rows => filter (fun course => String.eqb (row_user_id course) studentId) rows
  | None => []
  end.

(** What a cell of the table renders. *)
Inductive Badge :=
| TitleBadge (title : option string)
| MoreBadge (hidden : nat)
| EmptyText (text : string).

(** The services cell: [slice(0, 2)], "+n more", "No services". *)
Definition servicesCell (studentServicesList : list AssignmentRow) : list Badge :=
  map (fun service => TitleBadge (row_title service)) (firstn 2 studentServicesList)
  ++ (if (2 <? length studentServicesList)%nat
      then [MoreBadge (length studentServicesList - 2)] else [])
  ++ (if (length studentServicesList =? 0)%nat then [EmptyText "No services"] else []).

(** The courses cell: [slice(0, 1)], "+n more", "No courses". *)
Definition coursesCell (studentCoursesList : list AssignmentRow) : list Badge :=
  map (fun course => TitleBadge (row_title course)) (firstn 1 studentCoursesList)
  ++ (if (1 <? length studentCoursesList)%nat
      then [MoreBadge (length studentCoursesList - 1)] else [])
  ++ (if (length studentCoursesList =? 0)%nat then [EmptyText "No courses"] else []).

(** How many rows a cell stands for. *)
Definition stands_for (cell : list Badge) : nat :=
  fold_right (fun badge n =>
                match badge with
                | TitleBadge _ => S n
                | MoreBadge k => k + n
                | EmptyText _ => n
                end) 0 cell.

Record DeleteDialog := mkDeleteDialog {
  isOpen : bool;
  dialog_user : option Student
}.

(** The body of the answer of the delete function: [null], or an object
    with or without an [error] string. *)
Record DeleteResponse := mkDeleteResponse {
  delete_ok : bool;
  delete_json : Completion (option (option string))
}.

(** [null_property_error] is the message of the engine's TypeError for
    reading a property of [null]. *)
Record DeleteApi := mkDeleteApi {
  getSession : Completion (option string);
  delete_user : string -> string -> Completion DeleteResponse;
  null_property_error : string
}.

(** [mutationFn] of [deleteUserMutation] *)
Definition deleteUser (api : DeleteApi) (userId : string) : UI DeleteDialog unit :=
  (session <- Ui.call GetSession (getSession api) ;;
   match session with
   | None => Ui.throw (Error "No active session")
   | Some access_token =>
       response <- Ui.call (DeleteUserRequest access_token userId)
                           (delete_user api access_token userId) ;;
       result <- Ui.call ReadJson (delete_json response) ;;
       if negb (delete_ok response) then
         match result with
         | None => Ui.throw (TypeError (null_property_error api))
         | Some error => Ui.throw (Error (Js.or_else error "Failed to delete user"))
         end
       else Ui.ret tt
   end)%ui.

Definition closed_dialog : DeleteDialog := mkDeleteDialog false None.

(** [deleteUserMutation.mutate(userId)] with its two callbacks. *)
Definition deleteUserMutation (api : DeleteApi) (userId : string) : UI DeleteDialog unit :=
  Ui.mutate
    (deleteUser api userId)
    (Ui.emit (ToastSuccess "User deleted successfully") ;;
     Ui.emit (InvalidateQueries ["admin-students"]) ;;
     Ui.set (fun _ => closed_dialog))%ui
    (fun error =>
       Ui.emit (ToastError ("Failed to delete user: " ++ message error)) ;;
       Ui.emit (ConsoleErr "Delete user error:"))%ui.

Definition handleDeleteUser (user : Student) : UI DeleteDialog unit :=
  Ui.set (fun _ => mkDeleteDialog true (Some user)).

Definition handleCloseDeleteDialog : UI DeleteDialog unit :=
  Ui.set (fun _ => closed_dialog).

Definition handleConfirmDelete (api : DeleteApi) : UI DeleteDialog unit :=
  fun deleteDialog =>
    match dialog_user deleteDialog with
    | Some user => deleteUserMutation api (student_id user) deleteDialog
    | None => Ui.ret tt deleteDialog
    end.

(** *** [AdminStudentDetail]: the courses left to assign *)

Record Course := mkCourse {
  course_id : string;
  course_title : string
}.

Record CourseAssignment := mkCourseAssignment {
  assigned_course_id : option string
}.

(** [userCourses?.map(uc => uc.course_id).filter(Boolean) || []] *)
Definition assignedCourseIds (userCourses : option (list CourseAssignment))
  : list string :=
  match userCourses with
  | Some rows =>
      flat_map (fun uc => match assigned_course_id uc with
                          | Some (String c r) => [String c r]
                          | _ => []
                          end) rows
  | None => []
  end.

(** [availableCoursesToAssign] *)
Definition availableCoursesToAssign (availableCourses : option (list Course))
           (userCourses : option (list CourseAssignment)) : list Course :=
  match availableCourses with
  | Some courses =>
      filter (fun course =>
                negb (existsb (String.eqb (course_id course))
                              (assignedCourseIds userCourses)))
             courses
  | None => []
  end.

Record AssignState := mkAssignState {
  showAssignCourse : bool;
  selectedCourse : string
}.

(** The answer of the insert: [{ error }] with the message of the error. *)
Record AssignApi := mkAssignApi {
  insert_assignment : string -> string -> bool -> Completion (option string)
}.

(** [assignCourseMutation.mutate(courseId)] for the student [id] of the
    page. *)
Definition assignCourseMutation (api : AssignApi) (id courseId : string)
  : UI AssignState unit :=
  Ui.mutate
    (error <- Ui.call (InsertCourseAssignment id courseId false)
                      (insert_assignment api id courseId false) ;;
     match error with
     | Some msg => Ui.throw (Error msg)
     | None => Ui.ret tt
     end)%ui
    (Ui.emit (ToastSuccess "Course assigned successfully") ;;
     Ui.emit (InvalidateQueries ["admin-student-courses"; id]) ;;
     Ui.set (fun s => mkAssignState false (selectedCourse s)) ;;
     Ui.set (fun s => mkAssignState (showAssignCourse s) ""))%ui
    (fun error =>
       Ui.emit (ToastError ("Failed to assign course: " ++ message error)))%ui.

(** [handleAssignCourse] *)
Definition handleAssignCourse (api : AssignApi) (id : string) : UI AssignState unit :=
  fun s =>
    if negb (Js.truthy (Some (selectedCourse s)))
    then Ui.emit (ToastError "Please select a course") s
    else assignCourseMutation api id (selectedCourse s) s.

(* ===================================================================== *)
(** ** The console output of [extractStoragePath] *)
(* ===================================================================== *)

(** [extractStoragePath] with its console calls: the result and, in order,
    what it writes to the console -- 'Original file path:' on entry,
    'Extracted storage path:' or 'Fallback storage path:' before the
    decoding, and 'Error parsing file path:' in the [catch]. *)
Definition extractStoragePath_logged
           (parser : string -> option string) (filePath : string)
  : Completion string * list Event :=
  let entry := [ConsoleLog "Original file path:"] in
  if negb (Js.startsWith "http" filePath) then (Normal filePath, entry)
  else
    let caught := (Normal filePath, [ConsoleError "Error parsing file path:"]) in
    let '(result, written) :=
      match new_URL parser filePath with
      | Throw _ => caught
      | Normal url =>
          let pathParts := Js.split "/" (pathname url) in
          let bucketIndex := Js.indexOf "student-files" pathParts in
          if negb (bucketIndex =? -1)%Z
             && (bucketIndex <? Z.of_nat (length pathParts) - 1)%Z
          then
            let storagePath :=
              Js.join "/" (Js.slice (bucketIndex + 1) pathParts) in
            match Uri.decodeURIComponent storagePath with
            | Normal key => (Normal key, [ConsoleLog "Extracted storage path:"])
            | Throw _ =>
                (fst caught, ConsoleLog "Extracted storage path:" :: snd caught)
            end
          else
            let lastPart :=
              Js.at_index pathParts (Z.of_nat (length pathParts) - 1) in
            match Uri.decodeURIComponent
                    (match lastPart with Some p => p | None => "undefined" end) with
            | Normal key => (Normal key, [ConsoleLog "Fallback storage path:"])
            | Throw _ =>
                (fst caught, ConsoleLog "Fallback storage path:" :: snd caught)
            end
      end in
    (result, entry ++ written).

(** Everything a run of [handleDownload] does outside the page: the
    console output of [extractStoragePath], which the handler calls first,
    and then the events of the handler itself. *)
Definition download_trace (P : Platform) (file : FileRecord) (b : Browser)
  : list Event :=
  snd (extractStoragePath_logged (url_pathname P) (file_path file))
  ++ events (handleDownload P file b).


(** Text of ASCII characters only: on it the case mappings of the model
    are those of JavaScript. *)
Fixpoint is_ascii (s : string) : bool :=
  match s with
  | EmptyString => true
  | String c rest => (N_of_ascii c <? 128)%N && is_ascii rest
  end.

(** The titles a cell shows, and the number behind its "+n more". *)
Definition shown_titles (cell : list Badge) : list (option string) :=
  flat_map (fun badge => match badge with
                         | TitleBadge t => [t]
                         | _ => []
                         end) cell.

Definition hidden_count (cell : list Badge) : list nat :=
  flat_map (fun badge => match badge with
                         | MoreBadge n => [n]
                         | _ => []
                         end) cell.

(** A sample platform whose catalogue holds a reference that does not
    decode. *)
Module Undecodable.

Definition scan : FileRecord :=
  mkFile "f-9" "scan.pdf" "https://store.example/student-files/100%.pdf"
         "application/pdf" "".

End Undecodable.

(* ===================================================================== *)
(** * Properties *)
(* ===================================================================== *)

(** ** The primitives on sample inputs *)

Example split_path :
  Js.split "/" "/object/public/student-files/report.pdf"
  = [""; "object"; "public"; "student-files"; "report.pdf"].
Proof. reflexivity. Qed.

Example split_empty : Js.split "." "" = [""].
Proof. reflexivity. Qed.

Example indexOf_found :
  Js.indexOf "student-files" [""; "object"; "public"; "student-files"; "a"] = 3%Z.
Proof. reflexivity. Qed.

Example indexOf_absent : Js.indexOf "student-files" [""; "object"] = (-1)%Z.
Proof. reflexivity. Qed.

Example decode_space : Uri.decodeURIComponent "a%20b" = Normal "a b".
Proof. reflexivity. Qed.

Example decode_malformed :
  Uri.decodeURIComponent "100%.pdf" = Throw (URIError "URI malformed").
Proof. reflexivity. Qed.

Example decode_overlong :
  Uri.decodeURIComponent "%C0%80" = Throw (URIError "URI malformed").
Proof. reflexivity. Qed.

Example scheme_of_key : Uri.has_scheme "u-1/report.pdf" = false.
Proof. reflexivity. Qed.

Example scheme_of_url : Uri.has_scheme "https://store.example/a" = true.
Proof. reflexivity. Qed.

Example classify_two_separators : classify "a/b/c" "x" = "b".
Proof. reflexivity. Qed.

Example classify_subtype_file : classify "x/file" "a.txt" = "txt".
Proof. reflexivity. Qed.

Example classify_bare_extension : classify "PDF" "a.txt" = "PDF".
Proof. reflexivity. Qed.

Example resolve_nested :
  extractStoragePath PlainUrl.pathname
    "https://store.example/object/public/student-files/u-1/my%20notes.pdf"
  = Normal "u-1/my notes.pdf".
Proof. reflexivity. Qed.

Example resolve_other_scheme :
  extractStoragePath PlainUrl.pathname
    "ftp://store.example/student-files/report.pdf"
  = Normal "ftp://store.example/student-files/report.pdf".
Proof. reflexivity. Qed.

Example resolve_undecodable :
  extractStoragePath PlainUrl.pathname
    "https://store.example/student-files/100%.pdf"
  = Normal "https://store.example/student-files/100%.pdf".
Proof. reflexivity. Qed.

Example resolve_no_marker :
  extractStoragePath PlainUrl.pathname "https://cdn.example/files/report.pdf?v=2"
  = Normal "report.pdf".
Proof. reflexivity. Qed.

(** ** Strings and arrays *)

Lemma split_not_nil (c : ascii) (s : string) : Js.split c s <> [].
Proof.
  induction s as [|d s IH]; simpl; [discriminate|].
  destruct (Ascii.eqb d c); [discriminate|].
  destruct (Js.split c s); discriminate.
Qed.

Lemma split_without_separator (c : ascii) (s : string) :
  Js.includes c s = false -> Js.split c s = [s].
Proof.
  induction s as [|d s IH]; simpl; [reflexivity|].
  destruct (Ascii.eqb d c); [discriminate|].
  intros H. rewrite (IH H). reflexivity.
Qed.

Lemma split_append (c : ascii) (a b : string) :
  Js.split c (a ++ String c b) = Js.split c a ++ Js.split c b.
Proof.
  induction a as [|d a IH]; simpl.
  - rewrite Ascii.eqb_refl. reflexivity.
  - destruct (Ascii.eqb d c).
    + rewrite IH. reflexivity.
    + rewrite IH. destruct (Js.split c a) as [|hd tl] eqn:E.
      * exfalso. exact (split_not_nil c a E).
      * reflexivity.
Qed.

Lemma pop_append (l1 l2 : list string) :
  l2 <> [] -> Js.pop (l1 ++ l2) = Js.pop l2.
Proof.
  intros H. induction l1 as [|x l1 IH]; [reflexivity|].
  simpl. destruct (l1 ++ l2) eqn:E.
  - destruct l1; simpl in E; [contradiction | discriminate].
  - exact IH.
Qed.

Lemma pop_split_defined (c : ascii) (s : string) :
  exists p, Js.pop (Js.split c s) = Some p.
Proof.
  pose proof (split_not_nil c s) as H.
  induction (Js.split c s) as [|x l IH]; [contradiction|].
  destruct l as [|y l].
  - exists x. reflexivity.
  - destruct IH as [p Hp]; [discriminate|]. exists p. exact Hp.
Qed.

Lemma pop_trailing_separator (c : ascii) (m : string) :
  Js.pop (Js.split c (m ++ String c EmptyString)) = Some EmptyString.
Proof.
  rewrite split_append. rewrite pop_append; [reflexivity | discriminate].
Qed.

Lemma last_index_is_pop (l : list string) :
  nth_error l (length l - 1) = Js.pop l.
Proof.
  induction l as [|x l IH]; [reflexivity|].
  destruct l as [|y l]; [reflexivity|].
  replace (length (x :: y :: l) - 1)%nat with (S (length (y :: l) - 1))
    by (simpl length; lia).
  exact IH.
Qed.

Lemma at_last_index (l : list string) :
  l <> [] -> Js.at_index l (Z.of_nat (length l) - 1) = Js.pop l.
Proof.
  intros H. unfold Js.at_index.
  destruct l as [|x l]; [contradiction|].
  assert (E : (Z.of_nat (length (x :: l)) - 1 = Z.of_nat (length (x :: l) - 1))%Z)
    by (simpl length; lia).
  rewrite E. destruct (Z.ltb_spec (Z.of_nat (length (x :: l) - 1)) 0); [lia|].
  rewrite Nat2Z.id. apply last_index_is_pop.
Qed.

Lemma toLowerCase_nonempty (s : string) : s <> "" -> Js.toLowerCase s <> "".
Proof. destruct s; simpl; [contradiction | discriminate]. Qed.

Lemma or_else_nonempty (a : option string) (d : string) :
  d <> "" -> Js.or_else a d <> "".
Proof. intros H. destruct a as [[|c r]|]; simpl; [exact H | discriminate | exact H]. Qed.

Lemma or_else_some (a d : string) : a <> "" -> Js.or_else (Some a) d = a.
Proof. destruct a; [contradiction | reflexivity]. Qed.

Lemma truthy_nonempty (s : string) : Js.truthy (Some s) = true <-> s <> "".
Proof. destruct s; simpl; split; congruence. Qed.

Lemma includes_nonempty (c : ascii) (s : string) :
  Js.includes c s = true -> s <> "".
Proof. destruct s; simpl; [discriminate | discriminate]. Qed.

Lemma indexOf_after_marker (m : string) (parts : list string) :
  match after_marker m parts with
  | Some rest =>
      exists i : nat,
        Js.indexOf m parts = Z.of_nat i /\
        skipn (S i) parts = rest /\
        length parts = (S i + length rest)%nat
  | None => Js.indexOf m parts = (-1)%Z
  end.
Proof.
  induction parts as [|p parts IH]; simpl; [reflexivity|].
  destruct (String.eqb p m).
  - exists 0%nat. repeat split.
  - destruct (after_marker m parts) as [rest|].
    + destruct IH as (i & Hi & Hs & Hl).
      exists (S i). rewrite Hi.
      destruct (Z.eqb_spec (Z.of_nat i) (-1)); [lia|].
      repeat split; [lia | exact Hs | simpl; lia].
    + rewrite IH. reflexivity.
Qed.

(** ** TypeClassifier *)

Lemma mimeToExt_tags (k v : string) :
  lookup k mimeToExt = Some v -> v <> "" /\ v <> "file".
Proof.
  unfold mimeToExt. cbn [lookup]. intros H.
  repeat match type of H with
         | (if ?c then _ else _) = _ =>
             destruct c; [injection H as <-; split; discriminate|]
         end.
  discriminate.
Qed.

Lemma name_tag_nonempty (n : string) :
  Js.or_else (option_map Js.toLowerCase (Js.pop (Js.split "." n))) "file" <> "".
Proof. apply or_else_nonempty. discriminate. Qed.

Lemma classify_generic_metadata (t n : string) :
  t = "" \/ t = "file" ->
  classify t n =
  Js.or_else (option_map Js.toLowerCase (Js.pop (Js.split "." n))) "file".
Proof. intros [-> | ->]; reflexivity. Qed.

Lemma classify_compound_unfold (t n : string) :
  Js.includes "/" t = true ->
  classify t n =
  let fileType :=
    Js.or_else (Js.or (lookup t mimeToExt) (Js.at_index (Js.split "/" t) 1)) "file" in
  if String.eqb fileType "file" then classify "" n else fileType.
Proof.
  intros H. unfold classify.
  assert (Ht : Js.truthy (Some t) = true)
    by (apply truthy_nonempty; exact (includes_nonempty _ _ H)).
  rewrite Ht, H. cbn [andb].
  set (ft := Js.or_else _ "file").
  assert (Hft : Js.truthy (Some ft) = true).
  { apply truthy_nonempty. apply or_else_nonempty. discriminate. }
  rewrite Hft. cbn [negb orb]. cbv zeta.
  destruct (String.eqb ft "file"); reflexivity.
Qed.

(** C6 (as stated) fails: ["image/"] is a compound form that the table
    does not hold, the substring after its separator is empty, and the tag
    returned is the extension of the file name. *)
Lemma classify_compound_counterexample :
  Js.includes "/" "image/" = true /\
  lookup "image/" mimeToExt = None /\
  classify "image/" "a.txt" = "txt" /\
  classify "image/" "a.txt" <> after_first "/" "image/".
Proof. repeat split. discriminate. Qed.

(** C6 (amended): compound metadata found in the table gets the tag of the
    table.  A compound form that the table does not hold gets the segment
    between its first and its second separator (the whole substring after
    the separator when there is only one), provided that segment is
    neither empty nor "file"; otherwise the tag is derived from the file
    name as for empty metadata.  And [classify "image/png" "x" = "png"],
    [classify "" "notes.docx" = "docx"], [classify "" "" = "file"]. *)
Theorem classify_compound (t n : string) :
  Js.includes "/" t = true ->
  (forall v, lookup t mimeToExt = Some v -> classify t n = v) /\
  (lookup t mimeToExt = None ->
   forall seg, Js.at_index (Js.split "/" t) 1 = Some seg ->
     (seg <> "" -> seg <> "file" -> classify t n = seg) /\
     (seg = "" \/ seg = "file" -> classify t n = classify "" n)) /\
  (lookup t mimeToExt = None ->
   forall pre sub, t = (pre ++ String "/" sub)%string ->
     Js.includes "/" pre = false -> Js.includes "/" sub = false ->
     sub <> "" -> sub <> "file" ->
     classify t n = sub /\ after_first "/" t = sub) /\
  classify "image/png" "x" = "png" /\
  classify "" "notes.docx" = "docx" /\
  classify "" "" = "file".
Proof.
  intros Hsep.
  assert (Hseg : lookup t mimeToExt = None ->
            forall seg, Js.at_index (Js.split "/" t) 1 = Some seg ->
              (seg <> "" -> seg <> "file" -> classify t n = seg) /\
              (seg = "" \/ seg = "file" -> classify t n = classify "" n)).
  { intros Hnone seg Hs. rewrite (classify_compound_unfold t n Hsep).
    rewrite Hnone, Hs. unfold Js.or. cbn [Js.truthy]. cbv zeta. split.
    - intros H1 H2. rewrite (or_else_some seg "file" H1).
      apply String.eqb_neq in H2. rewrite H2. reflexivity.
    - intros [-> | ->]; reflexivity. }
  split; [|split; [exact Hseg|split]].
  - intros v Hv. rewrite (classify_compound_unfold t n Hsep).
    destruct (mimeToExt_tags t v Hv) as [H1 H2].
    rewrite Hv. unfold Js.or.
    apply truthy_nonempty in H1 as Ht. rewrite Ht. cbv zeta.
    rewrite (or_else_some v "file" H1).
    apply String.eqb_neq in H2. rewrite H2. reflexivity.
  - intros Hnone pre sub -> Hpre Hsub H1 H2.
    assert (Hs : Js.at_index (Js.split "/" (pre ++ String "/" sub)) 1 = Some sub).
    { rewrite split_append.
      rewrite (split_without_separator _ _ Hpre), (split_without_separator _ _ Hsub).
      reflexivity. }
    split.
    + exact (proj1 (Hseg Hnone sub Hs) H1 H2).
    + clear -Hpre. induction pre as [|d pre IH]; simpl in *.
      * reflexivity.
      * destruct (Ascii.eqb d "/"); [discriminate | exact (IH Hpre)].
  - repeat split.
Qed.

Lemma classify_compound_witness : classify "text/csv" "x" = "csv".
Proof.
  destruct (classify_compound "text/csv" "x" eq_refl) as (_ & H & _).
  destruct (H eq_refl "csv" eq_refl) as [H1 _].
  apply H1; discriminate.
Defined.

(** C8 (as stated) fails: with empty metadata and a file name that has no
    extension at all, the tag is the lower-cased name, not "file". *)
Lemma classify_total_counterexample :
  Js.includes "." "README" = false /\
  classify "" "README" = "readme" /\
  classify "" "README" <> "file".
Proof. repeat split. discriminate. Qed.

(** C8 (amended): [classify] is total and its tag is never empty; with
    metadata that is empty (or "file") and a file name that is empty or
    ends with '.', the tag is "file". *)
Theorem classify_total (t n : string) :
  classify t n <> "" /\
  (t = "" \/ t = "file" ->
   n = "" \/ (exists m, n = (m ++ ".")%string) ->
   classify t n = "file").
Proof.
  split.
  - unfold classify.
    set (ft := if Js.truthy (Some t) && Js.includes "/" t then _ else t).
    destruct (negb (Js.truthy (Some ft)) || String.eqb ft "file") eqn:E.
    + apply name_tag_nonempty.
    + apply orb_false_iff in E as [E _].
      apply negb_false_iff in E. apply truthy_nonempty. exact E.
  - intros Ht Hn. rewrite (classify_generic_metadata t n Ht).
    destruct Hn as [-> | [m ->]]; [reflexivity|].
    rewrite pop_trailing_separator. reflexivity.
Qed.

Lemma classify_total_witness : classify "" "archive." = "file".
Proof.
  apply (proj2 (classify_total "" "archive.")).
  - left. reflexivity.
  - right. exists "archive". reflexivity.
Defined.

(** C10 (as stated) fails for the empty file name, which has no '.': the
    tag is "file", not the (empty) lower-cased name. *)
Lemma classify_dotless_counterexample :
  Js.includes "." "" = false /\
  classify "" "" = "file" /\
  classify "" "" <> Js.toLowerCase "".
Proof. repeat split. discriminate. Qed.

(** C10 (amended): with metadata that is empty or "file" and a non-empty
    file name without any '.', the tag is the whole file name in lower
    case; [classify "" "README" = "readme"]. *)
Theorem classify_dotless_name (t n : string) :
  (t = "" \/ t = "file" ->
   Js.includes "." n = false ->
   n <> "" ->
   classify t n = Js.toLowerCase n) /\
  classify "" "README" = "readme".
Proof.
  split; [|reflexivity].
  intros Ht Hdot Hn. rewrite (classify_generic_metadata t n Ht).
  rewrite (split_without_separator _ _ Hdot). cbn [Js.pop option_map].
  apply or_else_some. apply toLowerCase_nonempty. exact Hn.
Qed.

Lemma classify_dotless_name_witness : classify "file" "Makefile" = "makefile".
Proof.
  apply (proj1 (classify_dotless_name "file" "Makefile")).
  - right. reflexivity.
  - reflexivity.
  - discriminate.
Defined.

(** ** PathResolver *)

Section PathResolverFacts.

Variable parser : string -> option string.

Lemma extractStoragePath_not_http (x : string) :
  Js.startsWith "http" x = false -> extractStoragePath parser x = Normal x.
Proof. intros H. unfold extractStoragePath. rewrite H. reflexivity. Qed.

Lemma extractStoragePath_parse_failure (x : string) (e : JsError) :
  new_URL parser x = Throw e -> extractStoragePath parser x = Normal x.
Proof.
  intros H. unfold extractStoragePath.
  destruct (Js.startsWith "http" x); [|reflexivity].
  rewrite H. reflexivity.
Qed.

Lemma new_URL_needs_scheme (x : string) :
  Uri.has_scheme x = false -> new_URL parser x = Throw (TypeError "Invalid URL").
Proof. intros H. unfold new_URL. rewrite H. reflexivity. Qed.

Lemma extractStoragePath_normal (s : string) :
  exists key, extractStoragePath parser s = Normal key.
Proof.
  unfold extractStoragePath.
  destruct (Js.startsWith "http" s); cbn [negb]; [|eauto].
  destruct (new_URL parser s) as [url|e]; cbn [bind_pure try_pure]; [|eauto].
  match goal with
  | |- context [if ?c then _ else _] => destruct c
  end;
  match goal with
  | |- context [Uri.decodeURIComponent ?a] =>
      destruct (Uri.decodeURIComponent a)
  end; cbn [try_pure]; eauto.
Qed.

End PathResolverFacts.

(** C7: [extractStoragePath] never throws: every input string has a
    result, and when parsing the reference as a URL fails that result is
    the reference itself. *)
Theorem extractStoragePath_never_throws (parser : string -> option string) (s : string) :
  (exists key, extractStoragePath parser s = Normal key) /\
  (forall e, new_URL parser s = Throw e -> extractStoragePath parser s = Normal s).
Proof.
  split.
  - apply extractStoragePath_normal.
  - intros e. apply extractStoragePath_parse_failure.
Qed.

Lemma extractStoragePath_never_throws_witness :
  extractStoragePath PlainUrl.pathname "https:" = Normal "https:".
Proof.
  apply (proj2 (extractStoragePath_never_throws PlainUrl.pathname "https:")
               (TypeError "Invalid URL")).
  reflexivity.
Defined.

(** C9: a reference that does not look like an absolute URL -- it does not
    start with "http", the test of the code, or it has no scheme at all --
    is returned unchanged, so resolving it twice is resolving it once. *)
Theorem extractStoragePath_canonical (parser : string -> option string) (x : string) :
  Js.startsWith "http" x = false \/ Uri.has_scheme x = false ->
  extractStoragePath parser x = Normal x /\
  bind_pure (extractStoragePath parser x) (extractStoragePath parser)
  = extractStoragePath parser x.
Proof.
  intros H.
  assert (E : extractStoragePath parser x = Normal x).
  { destruct H as [H | H].
    - apply extractStoragePath_not_http. exact H.
    - apply (extractStoragePath_parse_failure parser x _ (new_URL_needs_scheme parser x H)). }
  split; [exact E|]. rewrite E. exact E.
Qed.

Lemma extractStoragePath_canonical_witness :
  extractStoragePath PlainUrl.pathname "httpdocs/2024/report.pdf"
  = Normal "httpdocs/2024/report.pdf".
Proof.
  apply (proj1 (extractStoragePath_canonical PlainUrl.pathname "httpdocs/2024/report.pdf"
                  (or_intror eq_refl))).
Defined.

Lemma after_marker_last (m : string) (parts : list string) :
  after_marker m parts = Some [] -> Js.pop parts = Some m.
Proof.
  induction parts as [|p parts IH]; simpl; [discriminate|].
  destruct (String.eqb_spec p m) as [-> | _].
  - intros H. injection H as ->. reflexivity.
  - intros H. specialize (IH H). destruct parts; [discriminate | exact IH].
Qed.

(** C5 (as stated) fails: in this reference the marker is found, no path
    segment comes after it, and the result is the marker itself, not the
    (empty) text after the marker. *)
Lemma extractStoragePath_url_counterexample :
  new_URL PlainUrl.pathname "https://store.example/object/public/student-files"
  = Normal (mkURL "/object/public/student-files") /\
  after_marker "student-files" (Js.split "/" "/object/public/student-files")
  = Some [] /\
  specified_key "/object/public/student-files" = Normal "" /\
  extractStoragePath PlainUrl.pathname
    "https://store.example/object/public/student-files"
  = Normal "student-files" /\
  extractStoragePath PlainUrl.pathname
    "https://store.example/object/public/student-files"
  <> specified_key "/object/public/student-files".
Proof. repeat split. discriminate. Qed.

(** C5 (amended): for every stored reference that starts with "http" and
    parses as a URL: unless the marker 'student-files' is the final path
    segment, the result is the specified key -- the segments after the
    first marker joined and URL-decoded, or the final segment URL-decoded
    when there is no marker -- and the reference itself when the decoding
    fails; when the marker is the final segment the result is the marker.
    A reference whose path is /object/public/student-files/report.pdf
    resolves to report.pdf. *)
Theorem extractStoragePath_url (parser : string -> option string) (ref : string) :
  (forall url,
     Js.startsWith "http" ref = true ->
     new_URL parser ref = Normal url ->
     let parts := Js.split "/" (pathname url) in
     (after_marker "student-files" parts <> Some [] ->
      extractStoragePath parser ref
      = try_pure (specified_key (pathname url)) (fun _ => Normal ref)) /\
     (after_marker "student-files" parts = Some [] ->
      extractStoragePath parser ref = Normal "student-files")) /\
  (parser "https://store.example/object/public/student-files/report.pdf"
   = Some "/object/public/student-files/report.pdf" ->
   extractStoragePath parser
     "https://store.example/object/public/student-files/report.pdf"
   = Normal "report.pdf").
Proof.
  split.
  - intros url Hhttp Hurl parts.
    unfold extractStoragePath. rewrite Hhttp, Hurl.
    cbn [negb bind_pure]. fold parts.
    pose proof (indexOf_after_marker "student-files" parts) as Hidx.
    pose proof (split_not_nil "/" (pathname url)) as Hne. fold parts in Hne.
    unfold specified_key. fold parts.
    destruct (after_marker "student-files" parts) as [rest|] eqn:Eam.
    + destruct Hidx as (i & Hi & Hs & Hl). rewrite Hi.
      destruct (Z.eqb_spec (Z.of_nat i) (-1)) as [Hneg|_]; [lia|].
      cbn [negb andb]. split.
      * intros Hrest.
        assert (Hlen : (0 < length rest)%nat)
          by (destruct rest; [congruence | simpl; lia]).
        destruct (Z.ltb_spec (Z.of_nat i) (Z.of_nat (length parts) - 1)); [|lia].
        unfold Js.slice.
        replace (Z.to_nat (Z.of_nat i + 1)) with (S i) by lia.
        rewrite Hs. reflexivity.
      * intros Hrest. injection Hrest as ->. simpl in Hl.
        destruct (Z.ltb_spec (Z.of_nat i) (Z.of_nat (length parts) - 1)); [lia|].
        rewrite (at_last_index parts Hne).
        rewrite (after_marker_last _ _ Eam). reflexivity.
    + rewrite Hidx. cbn [Z.eqb negb andb]. split; [|discriminate].
      intros _. rewrite (at_last_index parts Hne).
      destruct (pop_split_defined "/" (pathname url)) as [p Hp].
      fold parts in Hp. rewrite Hp. reflexivity.
  - intros Hp. unfold extractStoragePath, new_URL.
    cbn [Js.startsWith String.prefix negb]. rewrite Hp. reflexivity.
Qed.

Lemma extractStoragePath_url_witness :
  extractStoragePath PlainUrl.pathname
    "https://store.example/object/public/student-files/report.pdf"
  = try_pure (specified_key "/object/public/student-files/report.pdf")
             (fun _ => Normal
                "https://store.example/object/public/student-files/report.pdf") /\
  extractStoragePath PlainUrl.pathname
    "https://store.example/object/public/student-files/report.pdf"
  = Normal "report.pdf".
Proof.
  split.
  - apply (proj1 (proj1 (extractStoragePath_url PlainUrl.pathname
                           "https://store.example/object/public/student-files/report.pdf")
                        (mkURL "/object/public/student-files/report.pdf")
                        eq_refl eq_refl)).
    discriminate.
  - apply (proj2 (extractStoragePath_url PlainUrl.pathname
                    "https://store.example/object/public/student-files/report.pdf")).
    reflexivity.
Defined.

(** ** DownloadTrigger: the runs of the handler *)

Lemma attempts_app (t1 t2 : list Event) :
  attempts (t1 ++ t2) = attempts t1 ++ attempts t2.
Proof.
  induction t1 as [|ev t1 IH]; [reflexivity|].
  simpl. destruct (starts ev); rewrite IH; reflexivity.
Qed.

Lemma delivery_app (t1 t2 : list Event) :
  delivery (t1 ++ t2) = delivery t1 ++ delivery t2.
Proof. apply filter_app. Qed.

Ltac step_js :=
  cbv beta iota delta
      [bind try_catch call lift modify ret throw console_log console_error
       createElement_a appendChild setTimeout URL_createObjectURL
       set_href set_download set_display set_target set_rel].

Section Runs.

Variable P : Platform.

Lemma fetchAndSave_run (u name : string) (b : Browser) :
  fetchAndSave P u name b =
  match fetch P u with
  | Throw e => mkRun (Throw e) b [Fetch u]
  | Normal response =>
      if negb (ok response)
      then mkRun (Throw (Error "HTTP error! status")) b [Fetch u]
      else
        match blob response with
        | Throw e => mkRun (Throw e) b [Fetch u; ReadBlob u]
        | Normal bytes =>
            let blobUrl := createObjectURL P bytes in
            let a := blob_anchor b blobUrl name in
            match click P a with
            | Throw e =>
                mkRun (Throw e) (page_with b a [blobUrl] [])
                      [Fetch u; ReadBlob u; Click a]
            | Normal _ =>
                mkRun (Normal tt)
                      (page_with b a [blobUrl]
                                 [(RemoveAnchorAndRevoke a blobUrl, 100%Z)])
                      [Fetch u; ReadBlob u; Click a;
                       ConsoleLog "Download completed successfully"]
            end
        end
  end.
Proof.
  unfold fetchAndSave, blob_anchor, page_with.
  destruct (fetch P u) as [response|e]; [|reflexivity].
  step_js. destruct (ok response); cbn [negb]; [|reflexivity].
  destruct (blob response) as [bytes|e]; [|reflexivity].
  cbn [node href download display target rel body objectURLs timers next_node].
  destruct (click P _) as [[]|e]; cbn [app]; rewrite ?app_nil_r; reflexivity.
Qed.

Lemma directLink_run (u name : string) (b : Browser) :
  directLink P u name b =
  let a := link_anchor b u name in
  match click P a with
  | Throw e => mkRun (Throw e) (page_with b a [] []) [Click a]
  | Normal _ =>
      mkRun (Normal tt) (page_with b a [] [(RemoveAnchor a, 100%Z)]) [Click a]
  end.
Proof.
  unfold directLink, link_anchor, page_with. step_js.
  cbn [node href download display target rel body objectURLs timers next_node].
  destruct (click P _) as [[]|e]; cbn [app]; rewrite ?app_nil_r; reflexivity.
Qed.

(** The handler, case by case. *)
Lemma handleDownload_run (file : FileRecord) (b : Browser) (path : string) :
  storagePath_is P file path ->
  handleDownload P file b =
  let asked :=
    [ConsoleLog "Downloading from storage path:";
     CreateSignedUrl "student-files" path 300] in
  let failed := [ConsoleError "Download failed:"] in
  match createSignedUrl P "student-files" path 300 with
  | Throw _ => mkRun (Normal tt) b (asked ++ failed)
  | Normal (SignError _) =>
      let asked2 :=
        asked ++ [ConsoleError "Error creating download URL:";
                  GetPublicUrl "student-files" path] in
      match getPublicUrl P "student-files" path with
      | Throw _ => mkRun (Normal tt) b (asked2 ++ failed)
      | Normal publicUrl =>
          if Js.truthy (Some publicUrl) then
            let r := directLink P publicUrl (file_name file) b in
            match completion r with
            | Normal _ => mkRun (Normal tt) (browser r) (asked2 ++ events r)
            | Throw _ =>
                mkRun (Normal tt) (browser r) (asked2 ++ events r ++ failed)
            end
          else mkRun (Normal tt) b asked2
      end
  | Normal (SignedUrl signedUrl) =>
      let r := fetchAndSave P signedUrl (file_name file) b in
      let opened :=
        [ConsoleError "Fetch failed, trying direct link:";
         WindowOpen signedUrl "_blank" "noopener,noreferrer"] in
      match completion r with
      | Normal _ => mkRun (Normal tt) (browser r) (asked ++ events r)
      | Throw _ =>
          match window_open P signedUrl "_blank" "noopener,noreferrer" with
          | Normal _ =>
              mkRun (Normal tt) (browser r) (asked ++ events r ++ opened)
          | Throw _ =>
              mkRun (Normal tt) (browser r)
                    (asked ++ events r ++ opened ++ failed)
          end
      end
  end.
Proof.
  unfold storagePath_is. intros Hpath.
  unfold handleDownload. rewrite Hpath.
  generalize (fetchAndSave P). generalize (directLink P). intros link save.
  step_js.
  destruct (createSignedUrl P "student-files" path 300) as [[signedUrl|message]|e];
    [| |reflexivity].
  - destruct (save signedUrl (file_name file) b) as [[[]|e] b1 t1];
      cbn [completion browser events app]; [reflexivity|].
    destruct (window_open P signedUrl "_blank" "noopener,noreferrer") as [[]|e'];
      cbn [app]; rewrite <- ?app_assoc; reflexivity.
  - destruct (getPublicUrl P "student-files" path) as [publicUrl|e];
      [|reflexivity].
    destruct (Js.truthy (Some publicUrl)); [|reflexivity].
    destruct (link publicUrl (file_name file) b) as [[[]|e] b1 t1];
      cbn [completion browser events app]; rewrite <- ?app_assoc;
      reflexivity.
Qed.

End Runs.

Lemma fetchAndSave_attempts (P : Platform) (u name : string) (b : Browser) :
  attempts (events (fetchAndSave P u name b)) = [StreamedFetch].
Proof.
  rewrite fetchAndSave_run.
  destruct (fetch P u) as [response|e]; [|reflexivity].
  destruct (ok response); cbn [negb]; [|reflexivity].
  destruct (blob response) as [bytes|e]; [|reflexivity].
  cbv zeta. destruct (click P _) as [[]|e]; reflexivity.
Qed.

Lemma fetchAndSave_delivery (P : Platform) (u name : string) (b : Browser) :
  exists rest, delivery (events (fetchAndSave P u name b)) = Fetch u :: rest.
Proof.
  rewrite fetchAndSave_run.
  destruct (fetch P u) as [response|e]; [|eexists; reflexivity].
  destruct (ok response); cbn [negb]; [|eexists; reflexivity].
  destruct (blob response) as [bytes|e]; [|eexists; reflexivity].
  cbv zeta. destruct (click P _) as [[]|e]; eexists; reflexivity.
Qed.

Lemma directLink_events (P : Platform) (u name : string) (b : Browser) :
  events (directLink P u name b) = [Click (link_anchor b u name)].
Proof.
  rewrite directLink_run. cbv zeta. destruct (click P _) as [[]|e]; reflexivity.
Qed.

(** The strategies attempted by a run, in order. *)
Lemma handleDownload_attempts
      (P : Platform) (file : FileRecord) (b : Browser) (path : string) :
  storagePath_is P file path ->
  attempts (events (handleDownload P file b)) =
  match createSignedUrl P "student-files" path 300 with
  | Normal (SignedUrl u) =>
      match completion (fetchAndSave P u (file_name file) b) with
      | Normal _ => [StreamedFetch]
      | Throw _ => [StreamedFetch; NewContext]
      end
  | Normal (SignError _) =>
      match getPublicUrl P "student-files" path with
      | Normal publicUrl =>
          if Js.truthy (Some publicUrl) then [DirectLink] else []
      | Throw _ => []
      end
  | Throw _ => []
  end.
Proof.
  intros Hpath. rewrite (handleDownload_run P file b path Hpath). cbv zeta.
  destruct (createSignedUrl P "student-files" path 300) as [[u|message]|e0];
    [| |reflexivity].
  - pose proof (fetchAndSave_attempts P u (file_name file) b) as Hatt.
    destruct (completion (fetchAndSave P u (file_name file) b)) as [[]|e1].
    + cbn [events]. rewrite attempts_app, Hatt. reflexivity.
    + destruct (window_open P u "_blank" "noopener,noreferrer") as [[]|e2];
        cbn [events]; rewrite !attempts_app, Hatt; reflexivity.
  - destruct (getPublicUrl P "student-files" path) as [publicUrl|e1];
      [|reflexivity].
    destruct (Js.truthy (Some publicUrl)); [|reflexivity].
    pose proof (directLink_events P publicUrl (file_name file) b) as Hev.
    destruct (completion (directLink P publicUrl (file_name file) b)) as [[]|e2];
      cbn [events]; rewrite ?attempts_app, Hev; reflexivity.
Qed.

(** C1 (as stated) fails: when the retrieval request fails, the attempt
    that follows the streamed fetch is the new context; the direct link is
    not attempted at all. *)
Lemma fallback_order_counterexample :
  completion (fetchAndSave Sample.fetch_blocked
                (Sample.grant "u-1/report.pdf") "report.pdf" empty_page)
  = Throw (TypeError "Failed to fetch") /\
  attempts (events (handleDownload Sample.fetch_blocked Sample.report empty_page))
  = [StreamedFetch; NewContext] /\
  ~ new_context_not_after_fetch
      (attempts (events (handleDownload Sample.fetch_blocked Sample.report empty_page))).
Proof.
  split; [reflexivity|]. split; [reflexivity|].
  intros H. exact (H [] [] eq_refl).
Qed.

(** C1 (amended): with a signed URL, a failure of the streamed fetch
    (strategy 1) is followed at once by the new-context strategy
    (strategy 3), and nothing else is attempted; a streamed fetch that
    succeeds is the only attempt.  The direct link (strategy 2) is
    attempted only when the signing request answers with an error, and it
    is then the only attempt: it never follows a streamed fetch. *)
Theorem handleDownload_fallback_order
        (P : Platform) (file : FileRecord) (b : Browser) (path : string) :
  storagePath_is P file path ->
  let t := attempts (events (handleDownload P file b)) in
  (forall u e,
     createSignedUrl P "student-files" path 300 = Normal (SignedUrl u) ->
     completion (fetchAndSave P u (file_name file) b) = Throw e ->
     t = [StreamedFetch; NewContext]) /\
  (forall u,
     createSignedUrl P "student-files" path 300 = Normal (SignedUrl u) ->
     completion (fetchAndSave P u (file_name file) b) = Normal tt ->
     t = [StreamedFetch]) /\
  (In DirectLink t ->
   t = [DirectLink] /\
   exists message,
     createSignedUrl P "student-files" path 300 = Normal (SignError message)).
Proof.
  intros Hpath t. subst t. rewrite (handleDownload_attempts P file b path Hpath).
  destruct (createSignedUrl P "student-files" path 300) as [[u|message]|e0].
  - split; [|split].
    + intros u' e Hsign Hfail. injection Hsign as <-. rewrite Hfail. reflexivity.
    + intros u' Hsign Hdone. injection Hsign as <-. rewrite Hdone. reflexivity.
    + destruct (completion (fetchAndSave P u (file_name file) b)).
      * intros [[=]|[]].
      * intros [[=]|[[=]|[]]].
  - split; [intros ? ? [=]|]. split; [intros ? [=]|].
    destruct (getPublicUrl P "student-files" path) as [publicUrl|e1];
      [|intros []].
    destruct (Js.truthy (Some publicUrl)); [|intros []].
    intros _. split; eauto.
  - split; [intros ? ? [=]|]. split; [intros ? [=]|]. intros [].
Qed.

Lemma handleDownload_fallback_order_witness :
  attempts (events (handleDownload Sample.fetch_blocked Sample.report empty_page))
  = [StreamedFetch; NewContext].
Proof.
  apply (proj1 (handleDownload_fallback_order
                  Sample.fetch_blocked Sample.report empty_page
                  "u-1/report.pdf" eq_refl)
               (Sample.grant "u-1/report.pdf") (TypeError "Failed to fetch"));
    reflexivity.
Defined.

(** C2 (as stated) fails: with the same URL granted, the signed grant is
    fetched and saved through a blob URL, the public grant is handed to a
    direct link. *)
Lemma grant_source_counterexample :
  delivery (events (handleDownload Sample.healthy Sample.report empty_page))
  = [Fetch (Sample.grant "u-1/report.pdf");
     ReadBlob (Sample.grant "u-1/report.pdf");
     Click (blob_anchor empty_page "blob:7f3c" "report.pdf")] /\
  delivery (events (handleDownload Sample.signing_down Sample.report empty_page))
  = [Click (link_anchor empty_page (Sample.grant "u-1/report.pdf") "report.pdf")] /\
  ~ delivery_independent_of_grant_source.
Proof.
  split; [reflexivity|]. split; [reflexivity|].
  intros H.
  specialize (H Sample.healthy Sample.signing_down Sample.report empty_page
                "u-1/report.pdf" (Sample.grant "u-1/report.pdf") "Object not found"
                eq_refl eq_refl eq_refl eq_refl eq_refl
                eq_refl eq_refl eq_refl eq_refl).
  discriminate H.
Qed.

(** C2 (amended): the first request of the handler is for a signed URL of
    the storage path with a time-to-live of 300 seconds.  When that request
    answers with an error and the public URL is not empty, the public URL
    is delivered by one direct link -- an anchor on that URL with the file
    name as download name, target "_blank" and rel "noopener noreferrer"
    -- with no fetch and no new context; a signed URL is delivered by the
    streamed fetch, which starts with a fetch of that URL. *)
Theorem handleDownload_access_url
        (P : Platform) (file : FileRecord) (b : Browser) (path : string) :
  storagePath_is P file path ->
  let t := events (handleDownload P file b) in
  (exists rest,
     t = ConsoleLog "Downloading from storage path:"
         :: CreateSignedUrl "student-files" path 300 :: rest) /\
  (forall message publicUrl,
     createSignedUrl P "student-files" path 300 = Normal (SignError message) ->
     getPublicUrl P "student-files" path = Normal publicUrl ->
     publicUrl <> "" ->
     delivery t = [Click (link_anchor b publicUrl (file_name file))] /\
     attempts t = [DirectLink]) /\
  (forall signedUrl,
     createSignedUrl P "student-files" path 300 = Normal (SignedUrl signedUrl) ->
     exists rest, delivery t = Fetch signedUrl :: rest).
Proof.
  intros Hpath t. subst t. split; [|split].
  - rewrite (handleDownload_run P file b path Hpath). cbv zeta.
    destruct (createSignedUrl P "student-files" path 300) as [[u|message]|e0].
    + destruct (completion (fetchAndSave P u (file_name file) b));
        [|destruct (window_open P u "_blank" "noopener,noreferrer")];
        eexists; reflexivity.
    + destruct (getPublicUrl P "student-files" path) as [publicUrl|e1];
        [destruct (Js.truthy (Some publicUrl));
         [destruct (completion (directLink P publicUrl (file_name file) b))|]|];
        eexists; reflexivity.
    + eexists; reflexivity.
  - intros message publicUrl Hsign Hpub Hne. split.
    + rewrite (handleDownload_run P file b path Hpath). cbv zeta.
      rewrite Hsign, Hpub.
      apply truthy_nonempty in Hne. rewrite Hne.
      pose proof (directLink_events P publicUrl (file_name file) b) as Hev.
      destruct (completion (directLink P publicUrl (file_name file) b));
        cbn [events]; rewrite Hev; reflexivity.
    + rewrite (handleDownload_attempts P file b path Hpath), Hsign, Hpub.
      apply truthy_nonempty in Hne. rewrite Hne. reflexivity.
  - intros signedUrl Hsign.
    rewrite (handleDownload_run P file b path Hpath). cbv zeta. rewrite Hsign.
    destruct (fetchAndSave_delivery P signedUrl (file_name file) b) as [rest Hd].
    destruct (completion (fetchAndSave P signedUrl (file_name file) b));
      [|destruct (window_open P signedUrl "_blank" "noopener,noreferrer")];
      cbn [events]; rewrite !delivery_app, Hd; eexists; reflexivity.
Qed.

Lemma handleDownload_access_url_witness :
  delivery (events (handleDownload Sample.signing_down Sample.report empty_page))
  = [Click (link_anchor empty_page (Sample.grant "u-1/report.pdf") "report.pdf")] /\
  attempts (events (handleDownload Sample.signing_down Sample.report empty_page))
  = [DirectLink].
Proof.
  apply (proj1 (proj2 (handleDownload_access_url
                         Sample.signing_down Sample.report empty_page
                         "u-1/report.pdf" eq_refl))
               "Object not found" (Sample.grant "u-1/report.pdf"));
    [reflexivity | reflexivity | discriminate].
Defined.


(** The result of [extractStoragePath_logged] is [extractStoragePath]. *)
Lemma extractStoragePath_logged_result
      (parser : string -> option string) (filePath : string) :
  fst (extractStoragePath_logged parser filePath)
  = extractStoragePath parser filePath.
Proof.
  unfold extractStoragePath_logged, extractStoragePath.
  destruct (Js.startsWith "http" filePath); cbn [negb]; [|reflexivity].
  destruct (new_URL parser filePath) as [url|e]; cbn [bind_pure try_pure];
    [|reflexivity].
  match goal with
  | |- context [if ?c then _ else _] => destruct c
  end;
  match goal with
  | |- context [Uri.decodeURIComponent ?a] =>
      destruct (Uri.decodeURIComponent a)
  end; reflexivity.
Qed.




(** ** Blob URLs *)

Lemma revoke_head (u : string) (l : list string) : revoke u (u :: l) = l.
Proof. simpl. rewrite String.eqb_refl. reflexivity. Qed.

Lemma appended_is_child (a : Anchor) (l : list Anchor) :
  existsb (is_node (node a)) (l ++ [a]) = true.
Proof.
  rewrite existsb_app. cbn [existsb]. unfold is_node.
  rewrite Nat.eqb_refl, orb_true_r. reflexivity.
Qed.

(** The clean-up callback of the streamed fetch revokes its blob URL. *)
Lemma cleanup_revokes (b : Browser) (a : Anchor) (blobUrl : string) :
  timers b = [] ->
  objectURLs
    (flush_timers
       (page_with b a [blobUrl] [(RemoveAnchorAndRevoke a blobUrl, 100%Z)]))
  = objectURLs b.
Proof.
  intros Htimers. unfold flush_timers, page_with.
  cbn [timers body objectURLs next_node]. rewrite Htimers.
  cbn [app run_timers run_timer]. unfold bind, removeChild.
  cbn [body]. rewrite appended_is_child.
  unfold revokeObjectURL, modify. cbn [browser objectURLs].
  apply revoke_head.
Qed.

(** A blob URL made by a streamed fetch that went through is revoked when
    the timers fire. *)
Lemma blob_url_released_after_save
      (P : Platform) (file : FileRecord) (b : Browser) (path u : string) :
  storagePath_is P file path ->
  createSignedUrl P "student-files" path 300 = Normal (SignedUrl u) ->
  completion (fetchAndSave P u (file_name file) b) = Normal tt ->
  timers b = [] ->
  objectURLs (flush_timers (browser (handleDownload P file b))) = objectURLs b.
Proof.
  intros Hpath Hsign Hdone Htimers.
  rewrite (handleDownload_run P file b path Hpath). cbv zeta.
  rewrite Hsign, Hdone. cbn [browser].
  revert Hdone. rewrite fetchAndSave_run.
  destruct (fetch P u) as [response|e]; [|discriminate].
  destruct (ok response); cbn [negb]; [|discriminate].
  destruct (blob response) as [bytes|e]; [|discriminate].
  cbv zeta. destruct (click P _) as [[]|e]; [|discriminate].
  intros _. cbn [browser]. apply cleanup_revokes. exact Htimers.
Qed.

(** A streamed fetch that fails before the body is read creates no blob
    URL. *)
Lemma no_blob_url_when_retrieval_fails
      (P : Platform) (file : FileRecord) (b : Browser) (path u : string) :
  storagePath_is P file path ->
  createSignedUrl P "student-files" path 300 = Normal (SignedUrl u) ->
  match fetch P u with
  | Throw _ => True
  | Normal response =>
      ok response = false \/ exists e, blob response = Throw e
  end ->
  browser (handleDownload P file b) = b.
Proof.
  intros Hpath Hsign Hfail.
  rewrite (handleDownload_run P file b path Hpath). cbv zeta. rewrite Hsign.
  rewrite fetchAndSave_run.
  destruct (fetch P u) as [response|e].
  - destruct Hfail as [Hok | [e Hblob]].
    + rewrite Hok. cbn [negb completion browser].
      destruct (window_open P u "_blank" "noopener,noreferrer"); reflexivity.
    + rewrite Hblob. destruct (ok response); cbn [negb completion browser];
        destruct (window_open P u "_blank" "noopener,noreferrer"); reflexivity.
  - cbn [completion browser].
    destruct (window_open P u "_blank" "noopener,noreferrer"); reflexivity.
Qed.


(* ===================================================================== *)
(** * Further properties of the file page *)
(* ===================================================================== *)

(** ** Type tags, icons and the type selector *)

Lemma classify_tag_nonempty (t n : string) : classify t n <> "".
Proof.
  unfold classify.
  set (ft := if Js.truthy (Some t) && Js.includes "/" t then _ else t).
  destruct (negb (Js.truthy (Some ft)) || String.eqb ft "file") eqn:E.
  - apply name_tag_nonempty.
  - apply orb_false_iff in E as [E _].
    apply negb_false_iff in E. apply truthy_nonempty. exact E.
Qed.

Lemma classify_bare (t n : string) :
  t <> "" -> t <> "file" -> Js.includes "/" t = false -> classify t n = t.
Proof.
  intros H1 H2 H3. unfold classify. rewrite H3, andb_false_r.
  apply truthy_nonempty in H1. rewrite H1.
  apply String.eqb_neq in H2. rewrite H2. reflexivity.
Qed.

(** The tag "file" is only ever produced from the file name. *)
Lemma classify_file_from_name (t n : string) :
  classify t n = "file" -> classify "" n = "file".
Proof.
  unfold classify at 1.
  set (ft := if Js.truthy (Some t) && Js.includes "/" t then _ else t).
  destruct (negb (Js.truthy (Some ft)) || String.eqb ft "file") eqn:E.
  - intros H. exact H.
  - intros H. apply orb_false_iff in E as [_ E].
    apply String.eqb_neq in E. contradiction.
Qed.

(** Classifying a record again with its tag as metadata gives the same
    tag, as long as the tag has no '/'. *)
Theorem classify_stable (t n : string) :
  Js.includes "/" (classify t n) = false ->
  classify (classify t n) n = classify t n.
Proof.
  intros Hsep.
  destruct (String.eqb_spec (classify t n) "file") as [E|E].
  - rewrite E. rewrite (classify_generic_metadata "file" n (or_intror eq_refl)).
    rewrite <- (classify_generic_metadata "" n (or_introl eq_refl)).
    apply classify_file_from_name with t. exact E.
  - apply classify_bare; [apply classify_tag_nonempty | exact E | exact Hsep].
Qed.

Lemma classify_stable_witness :
  classify (classify "text/csv" "data.CSV") "data.CSV" = classify "text/csv" "data.CSV".
Proof. apply classify_stable. reflexivity. Defined.

(** A tag made from a file name whose extension has a '/' is not stable:
    the second pass splits it. *)
Example classify_unstable :
  classify "" "scan.image/png" = "image/png" /\
  classify (classify "" "scan.image/png") "scan.image/png" = "png".
Proof. split; reflexivity. Qed.

Lemma lower_char_idempotent (c : ascii) :
  Js.lower_char (Js.lower_char c) = Js.lower_char c.
Proof. destruct c as [[] [] [] [] [] [] [] []]; reflexivity. Qed.

Lemma lower_upper_char (c : ascii) :
  Js.lower_char (JsString.upper_char c) = Js.lower_char c.
Proof. destruct c as [[] [] [] [] [] [] [] []]; reflexivity. Qed.

Lemma toLowerCase_idempotent (s : string) :
  Js.toLowerCase (Js.toLowerCase s) = Js.toLowerCase s.
Proof.
  induction s as [|c s IH]; [reflexivity|].
  simpl. rewrite lower_char_idempotent, IH. reflexivity.
Qed.

Lemma toLowerCase_toUpperCase (s : string) :
  Js.toLowerCase (JsString.toUpperCase s) = Js.toLowerCase s.
Proof.
  induction s as [|c s IH]; [reflexivity|].
  simpl. rewrite lower_upper_char, IH. reflexivity.
Qed.

(** The icon does not depend on the case of an ASCII tag: the upper-case
    and the lower-case forms of the tag get the icon of the tag.  (On
    ASCII text the case mappings of the model are those of JavaScript.) *)
Theorem getFileIcon_ignores_case (type : string) :
  is_ascii type = true ->
  getFileIcon (JsString.toUpperCase type) = getFileIcon type /\
  getFileIcon (Js.toLowerCase type) = getFileIcon type.
Proof.
  intros _. unfold getFileIcon.
  rewrite toLowerCase_toUpperCase, toLowerCase_idempotent. split; reflexivity.
Qed.

Lemma getFileIcon_ignores_case_witness :
  getFileIcon (JsString.toUpperCase "Pdf") = getFileIcon "Pdf" /\
  getFileIcon (Js.toLowerCase "Pdf") = getFileIcon "Pdf".
Proof. apply getFileIcon_ignores_case. reflexivity. Defined.

(** Every tag of the MIME table has an icon of its own kind, except the
    spreadsheet and presentation tags, which get the generic icon. *)
Theorem mimeToExt_icons (k v n : string) :
  lookup k mimeToExt = Some v ->
  classify k n = v /\
  (getFileIcon v = FileIcon <-> v = "xlsx" \/ v = "pptx").
Proof.
  unfold mimeToExt. cbn [lookup]. intros H.
  repeat match type of H with
         | (if String.eqb ?a k then _ else _) = _ =>
             destruct (String.eqb_spec a k) as [<-|_];
             [injection H as <-; split;
              [reflexivity
              |vm_compute; split;
               [intros E; first [discriminate E | auto]
               |intros [E|E]; first [discriminate E | reflexivity]]]|]
         end.
  discriminate.
Qed.

Lemma mimeToExt_icons_witness :
  classify "application/vnd.openxmlformats-officedocument.spreadsheetml.sheet" "q3"
  = "xlsx" /\
  (getFileIcon "xlsx" = FileIcon <-> "xlsx" = "xlsx" \/ "xlsx" = "pptx").
Proof.
  apply (mimeToExt_icons
           "application/vnd.openxmlformats-officedocument.spreadsheetml.sheet").
  reflexivity.
Defined.

Lemma Set_add_in (set : list string) (x y : string) :
  In y (JsString.Set_add set x) <-> In y set \/ y = x.
Proof.
  unfold JsString.Set_add.
  destruct (existsb (String.eqb x) set) eqn:E.
  - split; [auto|]. intros [H | ->]; [exact H|].
    apply existsb_exists in E as (z & Hz & Ez).
    apply String.eqb_eq in Ez. subst z. exact Hz.
  - rewrite in_app_iff. simpl. intuition.
Qed.

Lemma Set_add_NoDup (set : list string) (x : string) :
  NoDup set -> NoDup (JsString.Set_add set x).
Proof.
  intros H. unfold JsString.Set_add.
  destruct (existsb (String.eqb x) set) eqn:E; [exact H|].
  apply NoDup_app; [exact H | repeat constructor; intros [] |].
  intros z Hz [<- | []].
  assert (Hex : existsb (String.eqb x) set = true).
  { apply existsb_exists. exists x. split; [exact Hz | apply String.eqb_refl]. }
  congruence.
Qed.

Lemma fold_Set_add_in (values set : list string) (y : string) :
  In y (fold_left JsString.Set_add values set) <-> In y set \/ In y values.
Proof.
  revert set. induction values as [|x values IH]; intros set; simpl.
  - intuition.
  - rewrite IH, Set_add_in. intuition.
Qed.

Lemma fold_Set_add_NoDup (values set : list string) :
  NoDup set -> NoDup (fold_left JsString.Set_add values set).
Proof.
  revert set. induction values as [|x values IH]; intros set H; simpl.
  - exact H.
  - apply IH. apply Set_add_NoDup. exact H.
Qed.

Lemma fold_Set_add_prefix (values set : list string) :
  exists rest, fold_left JsString.Set_add values set = set ++ rest.
Proof.
  revert set. induction values as [|x values IH]; intros set; simpl.
  - exists []. rewrite app_nil_r. reflexivity.
  - destruct (IH (JsString.Set_add set x)) as [rest ->].
    unfold JsString.Set_add. destruct (existsb (String.eqb x) set).
    + exists rest. reflexivity.
    + exists (x :: rest). rewrite <- app_assoc. reflexivity.
Qed.

(** The set of a list whose element [t] occurs first after [before]: the
    set of [before], then [t], then the rest. *)
Lemma new_Set_first_occurrence (before after : list string) (t : string) :
  ~ In t before ->
  exists rest,
    JsString.new_Set (before ++ t :: after)
    = JsString.new_Set before ++ t :: rest.
Proof.
  intros Hnew. unfold JsString.new_Set. rewrite fold_left_app. cbn [fold_left].
  assert (Hadd : JsString.Set_add (fold_left JsString.Set_add before []) t
                 = fold_left JsString.Set_add before [] ++ [t]).
  { assert (Hout : existsb (String.eqb t) (fold_left JsString.Set_add before [])
                   = false).
    { destruct (existsb (String.eqb t) (fold_left JsString.Set_add before []))
        eqn:E; [|reflexivity].
      apply existsb_exists in E as (y & Hy & Ey).
      apply String.eqb_eq in Ey. subst y.
      apply fold_Set_add_in in Hy as [[] | Hy]. contradiction. }
    generalize dependent (fold_left JsString.Set_add before []).
    intros set Hout. unfold JsString.Set_add. rewrite Hout. reflexivity. }
  rewrite Hadd.
  destruct (fold_Set_add_prefix after (fold_left JsString.Set_add before [] ++ [t]))
    as [rest ->].
  exists rest. rewrite <- app_assoc. reflexivity.
Qed.

(** The type selector offers "all" first, then every type that some file
    has, each once, in the order in which the types first occur: the
    options that come before the type of a file that is the first of its
    type are the options of the files before it.  The options are pairwise
    distinct exactly when no file has the type "all". *)
Theorem uniqueTypes_options (files : list FileRecord) :
  (forall t, In t (uniqueTypes files) <->
             t = "all" \/ exists f, In f files /\ file_type f = t) /\
  hd_error (uniqueTypes files) = Some "all" /\
  NoDup (tl (uniqueTypes files)) /\
  (forall before f after,
     files = before ++ f :: after ->
     (forall g, In g before -> file_type g <> file_type f) ->
     exists rest,
       uniqueTypes files = uniqueTypes before ++ file_type f :: rest) /\
  (NoDup (uniqueTypes files) <-> forall f, In f files -> file_type f <> "all").
Proof.
  unfold uniqueTypes, JsString.new_Set.
  assert (Hin : forall t, In t (fold_left JsString.Set_add (map file_type files) [])
                          <-> exists f, In f files /\ file_type f = t).
  { intros t. rewrite fold_Set_add_in, in_map_iff. simpl.
    split; [intros [[]|(f & E & H)]; eauto | intros (f & H & E); right; eauto]. }
  assert (Hnd : NoDup (fold_left JsString.Set_add (map file_type files) []))
    by (apply fold_Set_add_NoDup; constructor).
  split; [|split; [|split; [|split]]].
  - intros t. split.
    + intros [<- | H]; [left; reflexivity | right; apply Hin; exact H].
    + intros [-> | H]; [left; reflexivity | right; apply Hin; exact H].
  - reflexivity.
  - exact Hnd.
  - intros before f after -> Hfirst.
    rewrite map_app. cbn [map].
    destruct (new_Set_first_occurrence (map file_type before) (map file_type after)
                                       (file_type f))
      as [rest Hrest].
    + intros H. apply in_map_iff in H as (g & E & Hg). exact (Hfirst g Hg E).
    + exists rest. unfold JsString.new_Set in Hrest. rewrite Hrest. reflexivity.
  - split.
    + intros H f Hf E. apply NoDup_cons_iff in H as [H _].
      apply H. apply Hin. eauto.
    + intros H. constructor; [|exact Hnd].
      intros Hall. apply Hin in Hall as (f & Hf & E). exact (H f Hf E).
Qed.

(** A file named "all" with no type metadata gets the tag "all", and the
    selector then lists "all" twice. *)
Example uniqueTypes_clash :
  uniqueTypes (processedFiles [mkFile "f-2" "all" "u-1/all" "" ""])
  = ["all"; "all"].
Proof. reflexivity. Qed.

(** ** Search and type filter *)

Lemma prefix_of_append (needle post : string) :
  String.prefix needle (needle ++ post) = true.
Proof.
  induction needle as [|a needle IH]; simpl.
  - destruct post; reflexivity.
  - destruct (ascii_dec a a) as [_|Hn]; [exact IH | contradiction].
Qed.

Lemma prefix_is_append (needle s : string) :
  String.prefix needle s = true -> exists post, s = (needle ++ post)%string.
Proof.
  revert s. induction needle as [|a needle IH]; intros s H.
  - exists s. reflexivity.
  - destruct s as [|c s]; [discriminate|]. simpl in H.
    destruct (ascii_dec a c) as [->|]; [|discriminate].
    destruct (IH s H) as [post ->]. exists post. reflexivity.
Qed.

Lemma includes_substring (needle s : string) :
  JsString.includes needle s = true <->
  exists pre post, s = (pre ++ needle ++ post)%string.
Proof.
  induction s as [|c s IH].
  - simpl. rewrite orb_false_r. split.
    + intros H. destruct needle; [|discriminate].
      exists "", "". reflexivity.
    + intros (pre & post & E). destruct pre; [|discriminate].
      destruct needle; [reflexivity | discriminate].
  - cbn [JsString.includes]. rewrite orb_true_iff, IH. split.
    + intros [H | (pre & post & ->)].
      * destruct (prefix_is_append _ _ H) as [post E].
        exists "", post. exact E.
      * exists (String c pre), post. reflexivity.
    + intros (pre & post & E). destruct pre as [|d pre].
      * left. cbn [append] in E. rewrite E. apply prefix_of_append.
      * right. injection E as _ ->. eauto.
Qed.

Lemma toUpperCase_truthy (s : string) :
  Js.truthy (Some (JsString.toUpperCase s)) = Js.truthy (Some s).
Proof. destruct s; reflexivity. Qed.

Lemma matches_search_ignores_case (term : string) (file : FileRecord) :
  matches_search (JsString.toUpperCase term) file = matches_search term file.
Proof. unfold matches_search. rewrite toLowerCase_toUpperCase. reflexivity. Qed.

(** The search does not depend on the case of an ASCII search term,
    whatever the names and descriptions of the files are.  (On ASCII text
    the case mappings of the model are those of JavaScript; the names are
    only ever compared with the lower-cased term.) *)
Theorem filterFiles_ignores_case (files : list FileRecord) (term type : string) :
  is_ascii term = true ->
  filterFiles files (JsString.toUpperCase term) type = filterFiles files term type /\
  filterFiles files (Js.toLowerCase term) type = filterFiles files term type.
Proof.
  intros _. unfold filterFiles. rewrite toUpperCase_truthy. split.
  - rewrite (filter_ext _ _ (matches_search_ignores_case term)). reflexivity.
  - assert (Ht : Js.truthy (Some (Js.toLowerCase term)) = Js.truthy (Some term))
      by (destruct term; reflexivity).
    rewrite Ht.
    assert (Hm : forall f, matches_search (Js.toLowerCase term) f = matches_search term f)
      by (intros f; unfold matches_search; rewrite toLowerCase_idempotent; reflexivity).
    rewrite (filter_ext _ _ Hm). reflexivity.
Qed.

Lemma filterFiles_ignores_case_witness :
  filterFiles [Sample.report] (JsString.toUpperCase "Report") "all"
  = filterFiles [Sample.report] "Report" "all" /\
  filterFiles [Sample.report] (Js.toLowerCase "Report") "all"
  = filterFiles [Sample.report] "Report" "all".
Proof. apply filterFiles_ignores_case. reflexivity. Defined.

(** What [filterFiles] keeps: the files that pass the search, when there is
    a search term, and have the selected type, unless it is "all". *)
Lemma filterFiles_In (files : list FileRecord) (term type : string) (f : FileRecord) :
  In f (filterFiles files term type) <->
  In f files /\
  (term = "" \/ matches_search term f = true) /\
  (type = "all" \/ file_type f = type).
Proof.
  unfold filterFiles.
  destruct term as [|c term]; cbn [Js.truthy];
    destruct (String.eqb_spec type "all") as [->|Hty]; cbn [negb];
    rewrite ?filter_In, ?String.eqb_eq; intuition congruence.
Qed.

(** A file is found by any part of its name, whatever the case: when the
    lower-cased name contains the lower-cased search term, the file is
    kept, provided it has the selected type. *)
Theorem search_finds_name_part
        (files : list FileRecord) (term type : string) (f : FileRecord)
        (pre post : string) :
  In f files ->
  Js.toLowerCase (file_name f) = (pre ++ Js.toLowerCase term ++ post)%string ->
  type = "all" \/ file_type f = type ->
  In f (filterFiles files term type).
Proof.
  intros Hf Hname Hty. apply filterFiles_In. repeat split; [exact Hf | | exact Hty].
  right. unfold matches_search. apply orb_true_iff. left.
  apply includes_substring. eauto.
Qed.

Lemma search_finds_name_part_witness :
  In Sample.report (filterFiles [Sample.report] "PORT" "all").
Proof.
  apply (search_finds_name_part [Sample.report] "PORT" "all" Sample.report
                                "re" ".pdf").
  - left. reflexivity.
  - reflexivity.
  - left. reflexivity.
Defined.

(** Searching and then selecting a type, or selecting a type and then
    searching, gives what both filters give at once. *)
Theorem filterFiles_compose (files : list FileRecord) (term type : string) :
  filterFiles (filterFiles files term "all") "" type = filterFiles files term type /\
  filterFiles (filterFiles files "" type) term "all" = filterFiles files term type.
Proof.
  unfold filterFiles.
  destruct term as [|c term]; cbn [Js.truthy];
    destruct (String.eqb_spec type "all") as [->|Hty];
    cbn [String.eqb Ascii.eqb Bool.eqb negb]; split; try reflexivity.
  induction files as [|f files IH]; [reflexivity|].
  cbn [filter]. destruct (String.eqb (file_type f) type) eqn:E1;
    destruct (matches_search (String c term) f) eqn:E2;
    cbn [filter]; rewrite ?E1, ?E2, IH; reflexivity.
Qed.

(** Every option of the selector other than "all" shows at least one file
    when there is no search term. *)
Theorem option_shows_a_file (files : list FileRecord) (t : string) :
  In t (uniqueTypes files) -> t <> "all" -> filterFiles files "" t <> [].
Proof.
  intros Hin Hall. unfold uniqueTypes in Hin. destruct Hin as [E | Hin];
    [congruence|].
  unfold JsString.new_Set in Hin. apply fold_Set_add_in in Hin as [[] | Hin].
  apply in_map_iff in Hin as (f & E & Hf).
  assert (H : In f (filterFiles files "" t)).
  { apply filterFiles_In. repeat split; [exact Hf | left; reflexivity | right; exact E]. }
  intros Hnil. rewrite Hnil in H. exact H.
Qed.

Lemma option_shows_a_file_witness :
  filterFiles (processedFiles [Sample.report]) "" "pdf" <> [].
Proof.
  apply option_shows_a_file; [right; left; reflexivity | discriminate].
Defined.

(** After [fetchFiles] the records keep their number, names, paths and
    order, and no option of the type selector is blank. *)
Theorem processedFiles_selector (data : list FileRecord) :
  map file_name (processedFiles data) = map file_name data /\
  map file_path (processedFiles data) = map file_path data /\
  (forall t, In t (uniqueTypes (processedFiles data)) ->
             t <> "" /\ optionLabel t <> "").
Proof.
  unfold processedFiles. rewrite !map_map. repeat split.
  - destruct H as [<- | H]; [discriminate|].
    unfold JsString.new_Set in H. apply fold_Set_add_in in H as [[] | H].
    rewrite map_map in H. apply in_map_iff in H as (f & <- & _).
    apply classify_tag_nonempty.
  - destruct H as [<- | H]; [discriminate|].
    unfold JsString.new_Set in H. apply fold_Set_add_in in H as [[] | H].
    rewrite map_map in H. apply in_map_iff in H as (f & <- & _).
    unfold optionLabel. cbn [file_type processFile].
    destruct (String.eqb _ "all"); [discriminate|].
    pose proof (classify_tag_nonempty (file_type f) (file_name f)) as Hne.
    destruct (classify (file_type f) (file_name f)); [contradiction | discriminate].
Qed.

(** ** Resolving the URLs of the bucket *)

Lemma join_split (c : ascii) (s : string) : Js.join c (Js.split c s) = s.
Proof.
  induction s as [|d s IH]; [reflexivity|].
  simpl. pose proof (split_not_nil c s) as Hne.
  destruct (Js.split c s) as [|hd tl] eqn:E; [contradiction|].
  destruct (Ascii.eqb_spec d c) as [->|_].
  - cbn [Js.join append]. f_equal. exact IH.
  - destruct tl as [|x tl].
    + simpl in *. f_equal. exact IH.
    + cbn [Js.join append] in *. f_equal. exact IH.
Qed.

Lemma after_marker_append (m : string) (l1 l2 : list string) :
  ~ In m l1 -> after_marker m (l1 ++ m :: l2) = Some l2.
Proof.
  induction l1 as [|x l1 IH]; intros H; simpl.
  - rewrite String.eqb_refl. reflexivity.
  - destruct (String.eqb_spec x m) as [->|_].
    + exfalso. apply H. left. reflexivity.
    + apply IH. intros Hin. apply H. right. exact Hin.
Qed.

Lemma decode_without_percent (s : string) :
  Js.includes "%" s = false -> Uri.decodeURIComponent s = Normal s.
Proof.
  intros H.
  assert (Ht : exists ts, Uri.tokens s = Some ts /\ Uri.octets 0 0 0 ts = Some s).
  { induction s as [|c s IH]; [exists []; split; reflexivity|].
    cbn [Js.includes] in H. cbn [Uri.tokens].
    destruct (Ascii.eqb c "%"); [discriminate|].
    destruct (IH H) as (ts & E1 & E2). exists (Uri.Lit c :: ts).
    rewrite E1. cbn [option_map Uri.octets]. rewrite E2. split; reflexivity. }
  destruct Ht as (ts & E1 & E2). unfold Uri.decodeURIComponent.
  rewrite E1, E2. reflexivity.
Qed.

(** Text without '%' is decoded to itself: [decodeURIComponent] neither
    throws on it nor changes it. *)
Theorem decodeURIComponent_plain (s : string) :
  Js.includes "%" s = false -> Uri.decodeURIComponent s = Normal s.
Proof. apply decode_without_percent. Qed.

Lemma decodeURIComponent_plain_witness :
  Uri.decodeURIComponent "u-1/report (final).pdf" = Normal "u-1/report (final).pdf".
Proof. apply decodeURIComponent_plain. reflexivity. Defined.

(** Round trip for the URLs of the bucket: when the path of the URL is
    some prefix without the segment 'student-files', then
    "/student-files/", then a key without '%', resolving gives the key
    back -- also when the key has several segments or holds the marker
    itself. *)
Theorem bucket_url_round_trip
        (parser : string -> option string) (ref prefix key : string) :
  Js.startsWith "http" ref = true ->
  new_URL parser ref = Normal (mkURL (prefix ++ "/student-files/" ++ key)) ->
  ~ In "student-files" (Js.split "/" prefix) ->
  Js.includes "%" key = false ->
  extractStoragePath parser ref = Normal key.
Proof.
  intros Hhttp Hurl Hprefix Hkey.
  unfold extractStoragePath. rewrite Hhttp, Hurl. cbn [negb bind_pure pathname].
  change (prefix ++ "/student-files/" ++ key)%string
    with (prefix ++ String "/" ("student-files" ++ String "/" key))%string.
  rewrite !split_append.
  change (Js.split "/" "student-files") with ["student-files"].
  cbn [app].
  set (parts := Js.split "/" prefix ++ "student-files" :: Js.split "/" key).
  pose proof (indexOf_after_marker "student-files" parts) as Hidx.
  unfold parts in Hidx at 1.
  rewrite (after_marker_append _ _ _ Hprefix) in Hidx.
  destruct Hidx as (i & Hi & Hs & Hl). rewrite Hi.
  pose proof (split_not_nil "/" key) as Hne.
  assert (Hlen : (0 < length (Js.split "/" key))%nat)
    by (destruct (Js.split "/" key); [contradiction | simpl; lia]).
  destruct (Z.eqb_spec (Z.of_nat i) (-1)); [lia|].
  destruct (Z.ltb_spec (Z.of_nat i) (Z.of_nat (length parts) - 1)); [|lia].
  cbn [negb andb]. unfold Js.slice.
  replace (Z.to_nat (Z.of_nat i + 1)) with (S i) by lia.
  rewrite Hs, join_split, (decode_without_percent key Hkey). reflexivity.
Qed.

Lemma bucket_url_round_trip_witness :
  extractStoragePath PlainUrl.pathname
    "https://store.example/storage/v1/object/public/student-files/u-1/student-files/notes.txt"
  = Normal "u-1/student-files/notes.txt".
Proof.
  apply (bucket_url_round_trip PlainUrl.pathname _ "/storage/v1/object/public").
  - reflexivity.
  - reflexivity.
  - cbv. intuition discriminate.
  - reflexivity.
Defined.

(** ** The download handler: requests, calls and the page *)

Lemma blob_url_released_after_save_witness :
  objectURLs (flush_timers
                (browser (handleDownload Sample.healthy Sample.report empty_page)))
  = [].
Proof.
  apply (blob_url_released_after_save Sample.healthy Sample.report empty_page
           "u-1/report.pdf" (Sample.grant "u-1/report.pdf")); reflexivity.
Defined.

Lemma no_blob_url_when_retrieval_fails_witness :
  browser (handleDownload Sample.fetch_blocked Sample.report empty_page) = empty_page.
Proof.
  apply (no_blob_url_when_retrieval_fails Sample.fetch_blocked Sample.report empty_page
           "u-1/report.pdf" (Sample.grant "u-1/report.pdf"));
    [reflexivity | reflexivity | exact I].
Defined.

Lemma fetchAndSave_events (P : Platform) (u name : string) (b : Browser) (ev : Event) :
  In ev (events (fetchAndSave P u name b)) ->
  ev = Fetch u \/ ev = ReadBlob u \/
  ev = Click (blob_anchor b (match fetch P u with
                             | Normal response =>
                                 match blob response with
                                 | Normal bytes => createObjectURL P bytes
                                 | Throw _ => ""
                                 end
                             | Throw _ => ""
                             end) name) \/
  ev = ConsoleLog "Download completed successfully".
Proof.
  rewrite fetchAndSave_run.
  destruct (fetch P u) as [response|e]; [|simpl; intuition].
  destruct (ok response); cbn [negb]; [|simpl; intuition].
  destruct (blob response) as [bytes|e]; [|simpl; intuition].
  cbv zeta. destruct (click P _) as [[]|e]; simpl; intuition.
Qed.

(** Every download asks for exactly one signed URL, for the bucket
    'student-files', the resolved path and 300 seconds; the public URL of
    the same path is asked for only when that request answered with an
    error, and there is no other request for an access URL. *)
Theorem one_grant_per_download
        (P : Platform) (file : FileRecord) (b : Browser) (path : string) :
  storagePath_is P file path ->
  filter is_access_request (events (handleDownload P file b))
  = CreateSignedUrl "student-files" path 300
    :: match createSignedUrl P "student-files" path 300 with
       | Normal (SignError _) => [GetPublicUrl "student-files" path]
       | _ => []
       end.
Proof.
  intros Hpath. rewrite (handleDownload_run P file b path Hpath). cbv zeta.
  assert (Hf : forall u, filter is_access_request
                           (events (fetchAndSave P u (file_name file) b)) = []).
  { intros u. rewrite fetchAndSave_run.
    destruct (fetch P u) as [response|e]; [|reflexivity].
    destruct (ok response); cbn [negb]; [|reflexivity].
    destruct (blob response) as [bytes|e]; [|reflexivity].
    cbv zeta. destruct (click P _) as [[]|e]; reflexivity. }
  destruct (createSignedUrl P "student-files" path 300) as [[u|message]|e0];
    [| |reflexivity].
  - destruct (completion (fetchAndSave P u (file_name file) b));
      [|destruct (window_open P u "_blank" "noopener,noreferrer")];
      cbn [events]; rewrite !filter_app, Hf; reflexivity.
  - destruct (getPublicUrl P "student-files" path) as [publicUrl|e1];
      [|reflexivity].
    destruct (Js.truthy (Some publicUrl)); [|reflexivity].
    pose proof (directLink_events P publicUrl (file_name file) b) as Hev.
    destruct (completion (directLink P publicUrl (file_name file) b));
      cbn [events]; rewrite !filter_app, Hev; reflexivity.
Qed.

Lemma one_grant_per_download_witness :
  filter is_access_request
         (events (handleDownload Sample.signing_down Sample.report empty_page))
  = [CreateSignedUrl "student-files" "u-1/report.pdf" 300;
     GetPublicUrl "student-files" "u-1/report.pdf"].
Proof.
  apply (one_grant_per_download Sample.signing_down Sample.report empty_page
                                "u-1/report.pdf").
  reflexivity.
Defined.

(** What the handler hands to the platform: every anchor it clicks is
    hidden and carries the name of the record as download name; only the
    signed URL is fetched, read or opened, and it is opened in a new
    context with 'noopener,noreferrer'. *)
Theorem delivery_calls
        (P : Platform) (file : FileRecord) (b : Browser) (path : string) (ev : Event) :
  storagePath_is P file path ->
  In ev (events (handleDownload P file b)) ->
  match ev with
  | Click a => download a = file_name file /\ display a = "none"
  | Fetch u | ReadBlob u =>
      createSignedUrl P "student-files" path 300 = Normal (SignedUrl u)
  | WindowOpen u target features =>
      createSignedUrl P "student-files" path 300 = Normal (SignedUrl u) /\
      target = "_blank" /\ features = "noopener,noreferrer"
  | _ => True
  end.
Proof.
  intros Hpath. rewrite (handleDownload_run P file b path Hpath). cbv zeta.
  destruct (createSignedUrl P "student-files" path 300) as [[u|message]|e0].
  - pose proof (fetchAndSave_events P u (file_name file) b ev) as Hev.
    assert (Hin : In ev (events (fetchAndSave P u (file_name file) b)) ->
                  match ev with
                  | Click a => download a = file_name file /\ display a = "none"
                  | Fetch u' | ReadBlob u' =>
                      @Normal SignedUrlResult (SignedUrl u) = Normal (SignedUrl u')
                  | WindowOpen u' target features =>
                      @Normal SignedUrlResult (SignedUrl u) = Normal (SignedUrl u') /\
                      target = "_blank" /\ features = "noopener,noreferrer"
                  | _ => True
                  end).
    { intros H. destruct (Hev H) as [-> | [-> | [-> | ->]]];
        [reflexivity | reflexivity | split; reflexivity | exact I]. }
    destruct (completion (fetchAndSave P u (file_name file) b));
      [|destruct (window_open P u "_blank" "noopener,noreferrer")];
      cbn [events]; rewrite ?in_app_iff; simpl;
      intros H; decompose [or] H; try (apply Hin; assumption);
      subst; auto; try contradiction.
  - destruct (getPublicUrl P "student-files" path) as [publicUrl|e1].
    + destruct (Js.truthy (Some publicUrl)).
      * pose proof (directLink_events P publicUrl (file_name file) b) as Hev.
        destruct (completion (directLink P publicUrl (file_name file) b));
          cbn [events]; rewrite Hev; simpl;
          intros H; decompose [or] H; subst; auto; try contradiction.
      * simpl. intros H; decompose [or] H; subst; auto; try contradiction.
    + simpl. intros H; decompose [or] H; subst; auto; try contradiction.
  - simpl. intros H; decompose [or] H; subst; auto; try contradiction.
Qed.

Lemma delivery_calls_witness :
  createSignedUrl Sample.save_blocked "student-files" "u-1/report.pdf" 300
  = Normal (SignedUrl (Sample.grant "u-1/report.pdf")) /\
  "_blank" = "_blank" /\ "noopener,noreferrer" = "noopener,noreferrer".
Proof.
  apply (delivery_calls Sample.save_blocked Sample.report empty_page "u-1/report.pdf"
           (WindowOpen (Sample.grant "u-1/report.pdf") "_blank" "noopener,noreferrer")).
  - reflexivity.
  - simpl. tauto.
Defined.


Lemma handleDownload_page
      (P : Platform) (file : FileRecord) (b : Browser) (path : string) :
  storagePath_is P file path ->
  browser (handleDownload P file b) = b \/
  exists a urls ts,
    node a = next_node b /\
    browser (handleDownload P file b) = page_with b a urls ts.
Proof.
  intros Hpath. rewrite (handleDownload_run P file b path Hpath). cbv zeta.
  assert (Hf : forall u,
             browser (fetchAndSave P u (file_name file) b) = b \/
             exists a urls ts,
               node a = next_node b /\
               browser (fetchAndSave P u (file_name file) b) = page_with b a urls ts).
  { intros u. rewrite fetchAndSave_run.
    destruct (fetch P u) as [response|e]; [|left; reflexivity].
    destruct (ok response); cbn [negb]; [|left; reflexivity].
    destruct (blob response) as [bytes|e]; [|left; reflexivity].
    cbv zeta. destruct (click P _) as [[]|e]; right;
      do 3 eexists; (split; [|reflexivity]); reflexivity. }
  destruct (createSignedUrl P "student-files" path 300) as [[u|message]|e0];
    [| |left; reflexivity].
  - destruct (completion (fetchAndSave P u (file_name file) b));
      [|destruct (window_open P u "_blank" "noopener,noreferrer")];
      cbn [browser]; apply Hf.
  - destruct (getPublicUrl P "student-files" path) as [publicUrl|e1];
      [|left; reflexivity].
    destruct (Js.truthy (Some publicUrl)); [|left; reflexivity].
    assert (Hd : exists a urls ts,
               node a = next_node b /\
               browser (directLink P publicUrl (file_name file) b)
               = page_with b a urls ts).
    { rewrite directLink_run. cbv zeta.
      destruct (click P _) as [[]|e]; do 3 eexists; (split; [|reflexivity]);
        reflexivity. }
    destruct (completion (directLink P publicUrl (file_name file) b));
      cbn [browser]; right; exact Hd.
Qed.

(** The handler keeps the nodes of the page fresh: it adds at most one
    anchor to the body, at the fresh node, keeps the anchors that were
    there, and never reuses a node. *)
Theorem handleDownload_keeps_nodes_fresh
        (P : Platform) (file : FileRecord) (b : Browser) :
  fresh_nodes b ->
  let b' := browser (handleDownload P file b) in
  fresh_nodes b' /\
  next_node b <= next_node b' <= S (next_node b) /\
  (body b' = body b \/ exists a, node a = next_node b /\ body b' = body b ++ [a]).
Proof.
  intros Hfresh b'. subst b'.
  destruct (extractStoragePath_normal (url_pathname P) (file_path file))
    as [path Hpath].
  destruct (handleDownload_page P file b path Hpath)
    as [-> | (a & urls & ts & Ha & ->)].
  - repeat split; [exact Hfresh | lia | lia | left; reflexivity].
  - unfold fresh_nodes, page_with in *. cbn [body next_node].
    repeat split; [| lia | lia | right; eauto].
    apply Forall_app. split.
    + eapply Forall_impl; [|exact Hfresh].
      intros c Hc. cbv beta in Hc |- *. apply Nat.lt_lt_succ_r. exact Hc.
    + constructor; [|constructor]. rewrite Ha. apply Nat.lt_succ_diag_r.
Qed.

Lemma handleDownload_keeps_nodes_fresh_witness :
  fresh_nodes (browser (handleDownload Sample.save_blocked Sample.report empty_page)).
Proof.
  apply (handleDownload_keeps_nodes_fresh Sample.save_blocked Sample.report empty_page).
  constructor.
Defined.

Lemma remove_fresh_anchor (b : Browser) (a : Anchor) :
  fresh_nodes b -> node a = next_node b ->
  filter (fun c => negb (is_node (node a) c)) (body b ++ [a]) = body b.
Proof.
  intros Hfresh Ha. rewrite filter_app. cbn [filter]. unfold is_node at 2.
  rewrite Nat.eqb_refl. cbn [negb]. rewrite app_nil_r.
  unfold fresh_nodes in Hfresh. induction (body b) as [|c l IH]; [reflexivity|].
  inversion Hfresh as [|? ? Hc Hl]; subst. cbn [filter]. unfold is_node at 1.
  destruct (Nat.eqb_spec (node c) (node a)) as [E|_]; [lia|].
  cbn [negb]. f_equal. apply IH. exact Hl.
Qed.

Lemma timer_removes_anchor (b : Browser) (a : Anchor) (urls : list string) (t : Timer) :
  fresh_nodes b -> node a = next_node b -> timers b = [] ->
  t = RemoveAnchor a \/ (exists u, t = RemoveAnchorAndRevoke a u) ->
  body (flush_timers (page_with b a urls [(t, 100%Z)])) = body b.
Proof.
  intros Hfresh Ha Htimers Ht. unfold flush_timers, page_with.
  cbn [timers body objectURLs next_node]. rewrite Htimers.
  cbn [app run_timers].
  destruct Ht as [-> | [u ->]]; unfold run_timer, bind, removeChild;
    cbn [body]; rewrite appended_is_child; cbn [browser body];
    apply remove_fresh_anchor; assumption.
Qed.

(** When every click the handler made went through, the anchor it added
    is gone from the body once the timers have fired. *)
Theorem anchor_removed_after_click
        (P : Platform) (file : FileRecord) (b : Browser) (path : string) :
  storagePath_is P file path ->
  fresh_nodes b ->
  timers b = [] ->
  (forall a, In (Click a) (events (handleDownload P file b)) ->
             click P a = Normal tt) ->
  body (flush_timers (browser (handleDownload P file b))) = body b.
Proof.
  intros Hpath Hfresh Htimers.
  assert (Hidle : body (flush_timers b) = body b).
  { unfold flush_timers. rewrite Htimers. reflexivity. }
  rewrite (handleDownload_run P file b path Hpath). cbv zeta.
  destruct (createSignedUrl P "student-files" path 300) as [[u|message]|e0];
    [| |intros _; exact Hidle].
  - assert (Hf : (forall a, In (Click a) (events (fetchAndSave P u (file_name file) b)) ->
                            click P a = Normal tt) ->
                 body (flush_timers (browser (fetchAndSave P u (file_name file) b)))
                 = body b).
    { rewrite fetchAndSave_run.
      destruct (fetch P u) as [response|e]; [|intros _; exact Hidle].
      destruct (ok response); cbn [negb]; [|intros _; exact Hidle].
      destruct (blob response) as [bytes|e]; [|intros _; exact Hidle].
      cbv zeta. destruct (click P _) as [[]|e] eqn:Ec; cbn [events browser].
      - intros _. apply timer_removes_anchor; eauto.
      - intros H. specialize (H _ (or_intror (or_intror (or_introl eq_refl)))).
        congruence. }
    destruct (completion (fetchAndSave P u (file_name file) b));
      [|destruct (window_open P u "_blank" "noopener,noreferrer")];
      cbn [events browser]; intros H; apply Hf; intros anchor Hanchor; apply H;
      rewrite !in_app_iff; auto.
  - destruct (getPublicUrl P "student-files" path) as [publicUrl|e1];
      [|intros _; exact Hidle].
    destruct (Js.truthy (Some publicUrl)); [|intros _; exact Hidle].
    rewrite directLink_run. cbv zeta.
    destruct (click P _) as [[]|e] eqn:Ec; cbn [completion events browser].
    + intros _. apply timer_removes_anchor; eauto.
    + intros H.
      assert (Hc : click P (link_anchor b publicUrl (file_name file)) = Normal tt)
        by (apply H; rewrite ?in_app_iff; simpl; tauto).
      congruence.
Qed.

Lemma anchor_removed_after_click_witness :
  body (flush_timers
          (browser (handleDownload Sample.signing_down Sample.report empty_page)))
  = [].
Proof.
  apply (anchor_removed_after_click Sample.signing_down Sample.report empty_page
                                    "u-1/report.pdf").
  - reflexivity.
  - constructor.
  - reflexivity.
  - intros a _. reflexivity.
Defined.

(** In the public-URL branch a click that throws leaves the hidden anchor
    in the body for good: no timer is set to remove it, and the download
    ends with "Download failed:" on the console. *)
Theorem direct_link_anchor_left_behind
        (P : Platform) (file : FileRecord) (b : Browser)
        (path message publicUrl : string) (e : JsError) :
  storagePath_is P file path ->
  createSignedUrl P "student-files" path 300 = Normal (SignError message) ->
  getPublicUrl P "student-files" path = Normal publicUrl ->
  publicUrl <> "" ->
  click P (link_anchor b publicUrl (file_name file)) = Throw e ->
  timers b = [] ->
  let r := handleDownload P file b in
  completion r = Normal tt /\
  timers (browser r) = [] /\
  body (flush_timers (browser r))
  = body b ++ [link_anchor b publicUrl (file_name file)] /\
  exists t, events r = t ++ [ConsoleError "Download failed:"].
Proof.
  intros Hpath Hsign Hpub Hne Hclick Htimers r. subst r.
  rewrite (handleDownload_run P file b path Hpath). cbv zeta.
  rewrite Hsign, Hpub. apply truthy_nonempty in Hne. rewrite Hne.
  rewrite directLink_run. cbv zeta. rewrite Hclick.
  cbn [completion browser events]. unfold page_with, flush_timers.
  cbn [timers body]. rewrite Htimers. cbn [app run_timers body].
  repeat split.
  exists ([ConsoleLog "Downloading from storage path:";
           CreateSignedUrl "student-files" path 300;
           ConsoleError "Error creating download URL:";
           GetPublicUrl "student-files" path;
           Click (link_anchor b publicUrl (file_name file))]).
  reflexivity.
Qed.

Lemma direct_link_anchor_left_behind_witness :
  body (flush_timers
          (browser (handleDownload Faulty.link_blocked Sample.report empty_page)))
  = [link_anchor empty_page (Sample.grant "u-1/report.pdf") "report.pdf"].
Proof.
  refine (proj1 (proj2 (proj2
    (direct_link_anchor_left_behind Faulty.link_blocked Sample.report empty_page
       "u-1/report.pdf" "Object not found" (Sample.grant "u-1/report.pdf")
       (Error "blocked") eq_refl eq_refl eq_refl _ eq_refl eq_refl)))).
  discriminate.
Defined.


(** The reference of [Undecodable.scan] parses, its key does not decode:
    the console holds 'Error parsing file path:' before the output of the
    handler. *)
Example download_trace_undecodable :
  download_trace Faulty.signing_rejected Undecodable.scan empty_page
  = [ConsoleLog "Original file path:";
     ConsoleLog "Extracted storage path:";
     ConsoleError "Error parsing file path:";
     ConsoleLog "Downloading from storage path:";
     CreateSignedUrl "student-files"
                     "https://store.example/student-files/100%.pdf" 300;
     ConsoleError "Download failed:"].
Proof. reflexivity. Qed.

(* ===================================================================== *)
(** * Properties of the sign-in page and the admin pages *)
(* ===================================================================== *)

Ltac step_ui :=
  cbv beta iota delta
      [Ui.bind Ui.try_catch Ui.try_finally Ui.call Ui.emit Ui.set Ui.ret
       Ui.throw Ui.mutate setIsLoading setResetEmailSent].

(** ** Sign-in and password reset *)

(** Whatever the authentication service answers -- success, an error or a
    rejected promise -- [handleSignIn] completes, leaves [isLoading] false,
    does not touch [resetEmailSent] and shows exactly one toast. *)
Theorem handleSignIn_settles (api : AuthApi) (email password : string) (s : AuthState) :
  match handleSignIn api email password s with
  | (c, s', t) =>
      c = Normal tt /\
      isLoading s' = false /\
      resetEmailSent s' = resetEmailSent s /\
      length (filter is_toast t) = 1
  end.
Proof.
  unfold handleSignIn. step_ui.
  destruct (signInWithPassword api email password) as [[msg|]|e]; cbn.
  - destruct (JsString.includes "Invalid login credentials" msg); cbn; auto.
  - auto.
  - auto.
Qed.

(** An error whose message contains 'Invalid login credentials' anywhere
    is shown as the advice to check the credentials; any other error is
    shown with its own message. *)
Theorem handleSignIn_error_toast
        (api : AuthApi) (email password msg : string) (s : AuthState) :
  signInWithPassword api email password = Normal (Some msg) ->
  filter is_toast (snd (handleSignIn api email password s))
  = [ToastError
       (if JsString.includes "Invalid login credentials" msg
        then "Invalid email or password. Please check your credentials."
        else msg)] /\
  (forall pre post,
     msg = (pre ++ "Invalid login credentials" ++ post)%string ->
     In (ToastError "Invalid email or password. Please check your credentials.")
        (snd (handleSignIn api email password s))).
Proof.
  intros Hanswer.
  assert (E : filter is_toast (snd (handleSignIn api email password s))
              = [ToastError
                   (if JsString.includes "Invalid login credentials" msg
                    then "Invalid email or password. Please check your credentials."
                    else msg)]).
  { unfold handleSignIn. step_ui. rewrite Hanswer. cbn.
    destruct (JsString.includes "Invalid login credentials" msg); reflexivity. }
  split; [exact E|].
  intros pre post Hmsg.
  assert (Hinc : JsString.includes "Invalid login credentials" msg = true)
    by (apply includes_substring; eauto).
  rewrite Hinc in E.
  assert (Hin : In (ToastError
                      "Invalid email or password. Please check your credentials.")
                   (filter is_toast (snd (handleSignIn api email password s))))
    by (rewrite E; left; reflexivity).
  apply filter_In in Hin. exact (proj1 Hin).
Qed.

Lemma handleSignIn_error_toast_witness :
  In (ToastError "Invalid email or password. Please check your credentials.")
     (snd (handleSignIn
             (mkAuthApi (fun _ _ => Normal (Some "AuthApiError: Invalid login credentials"))
                        (fun _ _ => Normal None) "https://portal.example")
             "a@b.example" "pw" (mkAuthState false false))).
Proof.
  apply (proj2 (handleSignIn_error_toast
                  (mkAuthApi (fun _ _ => Normal (Some "AuthApiError: Invalid login credentials"))
                             (fun _ _ => Normal None) "https://portal.example")
                  "a@b.example" "pw" "AuthApiError: Invalid login credentials"
                  (mkAuthState false false) eq_refl)
               "AuthApiError: " "").
  reflexivity.
Defined.

(** [handleForgotPassword] completes on every answer, leaves [isLoading]
    false and shows exactly one toast; [resetEmailSent] becomes true
    exactly when the request was answered without an error, and is
    otherwise left as it was; the link sent points to /auth?reset=true of
    the origin of the page. *)
Theorem handleForgotPassword_settles (api : AuthApi) (email : string) (s : AuthState) :
  match handleForgotPassword api email s with
  | (c, s', t) =>
      c = Normal tt /\
      isLoading s' = false /\
      length (filter is_toast t) = 1 /\
      resetEmailSent s'
      = match resetPasswordForEmail api email (origin api ++ "/auth?reset=true") with
        | Normal None => true
        | _ => resetEmailSent s
        end /\
      In (ResetPasswordForEmail email (origin api ++ "/auth?reset=true")) t
  end.
Proof.
  unfold handleForgotPassword. step_ui.
  destruct (resetPasswordForEmail api email (origin api ++ "/auth?reset=true"))
    as [[msg|]|e]; cbn; intuition.
Qed.

(** ** The table of students *)

Lemma includes_empty (s : string) : JsString.includes "" s = true.
Proof. destruct s; reflexivity. Qed.

(** With an empty search term the table lists the students that have a
    name, an email or an organization, and drops a student who has none of
    the three; it lists every student when each has an email. *)
Theorem filteredStudents_empty_search (students : list Student) :
  filteredStudents (Some students) ""
  = Some (filter (fun st =>
                    match student_name st, student_email st, student_organization st with
                    | None, None, None => false
                    | _, _, _ => true
                    end) students) /\
  (Forall (fun st => student_email st <> None) students ->
   filteredStudents (Some students) "" = Some students).
Proof.
  assert (Hf : forall st,
             (field_includes "" (student_name st)
              || field_includes "" (student_email st)
              || field_includes "" (student_organization st))
             = match student_name st, student_email st, student_organization st with
               | None, None, None => false
               | _, _, _ => true
               end).
  { intros st. unfold field_includes. cbn [Js.toLowerCase].
    destruct (student_name st), (student_email st), (student_organization st);
      rewrite ?includes_empty; reflexivity. }
  unfold filteredStudents. cbn [option_map].
  rewrite (filter_ext _ _ Hf). split; [reflexivity|].
  intros Hall. f_equal. induction Hall as [|st l Hst _ IH]; [reflexivity|].
  cbn [filter]. rewrite IH.
  destruct (student_name st), (student_email st), (student_organization st);
    try reflexivity. contradiction.
Qed.

Lemma filteredStudents_empty_search_witness :
  filteredStudents
    (Some [mkStudent "s-1" None (Some "ada@uni.example") None]) ""
  = Some [mkStudent "s-1" None (Some "ada@uni.example") None].
Proof.
  apply (proj2 (filteredStudents_empty_search
                  [mkStudent "s-1" None (Some "ada@uni.example") None])).
  repeat constructor. discriminate.
Defined.

(** The cells of the table: the services cell shows the titles of the
    first two services and no others, the courses cell the title of the
    first course and no other; "+n more" appears exactly when there are
    more rows than that, with the number of the rows not shown, so that
    the titles shown and the number behind "+n more" add up to the number
    of rows; a cell is never empty, and it says "No services" ("No
    courses") exactly when the student has none. *)
Theorem cells_account_for_every_row (rows : list AssignmentRow) :
  shown_titles (servicesCell rows) = map row_title (firstn 2 rows) /\
  shown_titles (coursesCell rows) = map row_title (firstn 1 rows) /\
  length (shown_titles (servicesCell rows)) <= 2 /\
  length (shown_titles (coursesCell rows)) <= 1 /\
  hidden_count (servicesCell rows)
  = (if (2 <? length rows)%nat then [length rows - 2] else []) /\
  hidden_count (coursesCell rows)
  = (if (1 <? length rows)%nat then [length rows - 1] else []) /\
  stands_for (servicesCell rows) = length rows /\
  stands_for (coursesCell rows) = length rows /\
  servicesCell rows <> [] /\ coursesCell rows <> [] /\
  (In (EmptyText "No services") (servicesCell rows) <-> rows = []) /\
  (In (EmptyText "No courses") (coursesCell rows) <-> rows = []).
Proof.
  destruct rows as [|r1 [|r2 [|r3 rows]]].
  - cbv. intuition (try discriminate; auto).
  - cbv. intuition (try discriminate; auto).
  - cbv. intuition (try discriminate; auto).
  - unfold servicesCell, coursesCell.
    cbn [firstn map length Nat.ltb Nat.leb Nat.eqb app Nat.sub].
    cbn [stands_for fold_right Nat.add shown_titles hidden_count flat_map app
         length].
    repeat split; try discriminate; try lia.
    + simpl. intuition discriminate.
    + simpl. intuition discriminate.
Qed.

(** ** The delete dialog *)

(** Confirming the dialog never throws.  The dialog closes, with the
    success toast and the refresh of the list, exactly when there is a
    session, the request and the reading of its body went through and the
    response is ok; in every other case the dialog stays as it was, with
    its user, one error toast is shown and the list is not refreshed.  A
    request is only ever sent with the token of the session and the id of
    the user of the dialog. *)
Theorem handleConfirmDelete_outcome (api : DeleteApi) (user : Student) (open : bool) :
  let deleteDialog := mkDeleteDialog open (Some user) in
  let succeeded :=
    match getSession api with
    | Normal (Some token) =>
        match delete_user api token (student_id user) with
        | Normal response =>
            match delete_json response with
            | Normal _ => delete_ok response
            | Throw _ => false
            end
        | Throw _ => false
        end
    | _ => false
    end in
  match handleConfirmDelete api deleteDialog with
  | (c, dialog', t) =>
      c = Normal tt /\
      dialog' = (if succeeded then closed_dialog else deleteDialog) /\
      (if succeeded
       then filter is_toast t = [ToastSuccess "User deleted successfully"]
            /\ In (InvalidateQueries ["admin-students"]) t
       else (exists m, filter is_toast t = [ToastError ("Failed to delete user: " ++ m)])
            /\ ~ In (InvalidateQueries ["admin-students"]) t) /\
      (forall token userId,
         In (DeleteUserRequest token userId) t ->
         getSession api = Normal (Some token) /\ userId = student_id user)
  end.
Proof.
  cbv zeta. unfold handleConfirmDelete, deleteUserMutation, deleteUser.
  cbn [dialog_user]. step_ui.
  destruct (getSession api) as [[token|]|e]; cbn;
    [destruct (delete_user api token (student_id user)) as [response|e]; cbn;
     [destruct (delete_json response) as [[error|]|e]; cbn;
      destruct (delete_ok response); cbn|]| |];
    (split; [reflexivity|]; split; [reflexivity|]; split;
     [first [split; [reflexivity | tauto]
            |split; [eexists; reflexivity
                    |intros H; decompose [or] H; try discriminate; contradiction]]
     |intros tk uid H; decompose [or] H; try discriminate; try contradiction;
      match goal with
      | E : DeleteUserRequest _ _ = _ |- _ => injection E as <- <-
      end; split; reflexivity]).
Qed.

(** What the error toast says when the delete function refuses.  For a
    response that is not ok: when its body is an object, the error of the
    body if it has a non-empty one, and otherwise the default text, which
    the toast then shows after its own prefix; when its body is the JSON
    [null], the message of the engine's TypeError.  When the body cannot
    be read as JSON the toast carries the reading error, whether the
    response was ok or not. *)
Theorem deleteUser_error_toast
        (api : DeleteApi) (user : Student) (open : bool)
        (token : string) (response : DeleteResponse) :
  getSession api = Normal (Some token) ->
  delete_user api token (student_id user) = Normal response ->
  let t := snd (handleConfirmDelete api (mkDeleteDialog open (Some user))) in
  (forall error,
     delete_ok response = false ->
     delete_json response = Normal (Some error) ->
     filter is_toast t
     = [ToastError ("Failed to delete user: "
                    ++ match error with
                       | Some (String c r) => String c r
                       | _ => "Failed to delete user"
                       end)]) /\
  (delete_ok response = false ->
   delete_json response = Normal None ->
   filter is_toast t
   = [ToastError ("Failed to delete user: " ++ null_property_error api)]) /\
  (forall e,
     delete_json response = Throw e ->
     filter is_toast t = [ToastError ("Failed to delete user: " ++ message e)]).
Proof.
  intros Hsession Hresponse t. subst t.
  unfold handleConfirmDelete, deleteUserMutation, deleteUser.
  cbn [dialog_user]. step_ui. rewrite Hsession. cbn. rewrite Hresponse. cbn.
  split; [|split].
  - intros error Hok Hjson. rewrite Hjson. cbn. rewrite Hok. cbn.
    destruct error as [[|c r]|]; reflexivity.
  - intros Hok Hjson. rewrite Hjson. cbn. rewrite Hok. reflexivity.
  - intros e Hjson. rewrite Hjson. reflexivity.
Qed.

Lemma deleteUser_error_toast_witness :
  filter is_toast
    (snd (handleConfirmDelete
            (mkDeleteApi (Normal (Some "jwt"))
                         (fun _ _ => Normal (mkDeleteResponse false (Normal None)))
                         "Cannot read properties of null (reading 'error')")
            (mkDeleteDialog true (Some (mkStudent "s-1" None None None)))))
  = [ToastError
       "Failed to delete user: Cannot read properties of null (reading 'error')"].
Proof.
  apply (proj1 (proj2 (deleteUser_error_toast
                  (mkDeleteApi (Normal (Some "jwt"))
                               (fun _ _ => Normal (mkDeleteResponse false (Normal None)))
                               "Cannot read properties of null (reading 'error')")
                  (mkStudent "s-1" None None None) true "jwt"
                  (mkDeleteResponse false (Normal None))
                  eq_refl eq_refl))); reflexivity.
Defined.

(** ** The courses left to assign *)

Lemma assignedCourseIds_In (rows : list CourseAssignment) (id : string) :
  In id (assignedCourseIds (Some rows)) <->
  id <> "" /\ exists row, In row rows /\ assigned_course_id row = Some id.
Proof.
  unfold assignedCourseIds. rewrite in_flat_map. split.
  - intros (row & Hrow & Hid).
    destruct (assigned_course_id row) as [[|c r]|] eqn:E; simpl in Hid;
      try contradiction.
    destruct Hid as [<- | []]. split; [discriminate | eauto].
  - intros (Hne & row & Hrow & E). exists row. split; [exact Hrow|].
    rewrite E. destruct id; [contradiction | left; reflexivity].
Qed.

(** A course with a non-empty id is offered for assignment exactly when it
    is in the catalogue and no assignment of the student names it; the
    offer keeps the order of the catalogue, and while the assignments are
    not loaded the whole catalogue is offered. *)
Theorem availableCoursesToAssign_unassigned
        (courses : list Course) (rows : list CourseAssignment) (c : Course) :
  course_id c <> "" ->
  (In c (availableCoursesToAssign (Some courses) (Some rows)) <->
   In c courses /\
   forall row, In row rows -> assigned_course_id row <> Some (course_id c)) /\
  availableCoursesToAssign (Some courses) None = courses /\
  availableCoursesToAssign None (Some rows) = [].
Proof.
  intros Hid. split; [|split].
  - unfold availableCoursesToAssign. rewrite filter_In, negb_true_iff.
    split.
    + intros [Hc Hex]. split; [exact Hc|]. intros row Hrow E.
      assert (Hin : In (course_id c) (assignedCourseIds (Some rows)))
        by (apply assignedCourseIds_In; eauto).
      assert (Ht : existsb (String.eqb (course_id c)) (assignedCourseIds (Some rows)) = true).
      { apply existsb_exists. exists (course_id c).
        split; [exact Hin | apply String.eqb_refl]. }
      congruence.
    + intros [Hc Hno]. split; [exact Hc|].
      destruct (existsb (String.eqb (course_id c)) (assignedCourseIds (Some rows)))
        eqn:E; [|reflexivity].
      apply existsb_exists in E as (id & Hin & Eid).
      apply String.eqb_eq in Eid. subst id.
      apply assignedCourseIds_In in Hin as (_ & row & Hrow & Erow).
      exfalso. exact (Hno row Hrow Erow).
  - unfold availableCoursesToAssign. cbn [assignedCourseIds existsb negb].
    induction courses as [|x l IH]; [reflexivity|]. cbn [filter]. f_equal. exact IH.
  - reflexivity.
Qed.

Lemma availableCoursesToAssign_unassigned_witness :
  In (mkCourse "c-2" "Prompting")
     (availableCoursesToAssign
        (Some [mkCourse "c-1" "Basics"; mkCourse "c-2" "Prompting"])
        (Some [mkCourseAssignment (Some "c-1"); mkCourseAssignment None])).
Proof.
  assert (Hid : course_id (mkCourse "c-2" "Prompting") <> "") by discriminate.
  apply (proj1 (availableCoursesToAssign_unassigned
                  [mkCourse "c-1" "Basics"; mkCourse "c-2" "Prompting"]
                  [mkCourseAssignment (Some "c-1"); mkCourseAssignment None]
                  (mkCourse "c-2" "Prompting") Hid)).
  split; [right; left; reflexivity|].
  intros row [<- | [<- | []]]; discriminate.
Defined.

(** [handleAssignCourse] never throws and shows exactly one toast.  It
    sends an insert only for a non-empty selection, for the student of the
    page, the selected course and [locked = false]; the dialog closes and
    the selection is cleared exactly when that insert was answered without
    an error, and otherwise the state is left as it was. *)
Theorem handleAssignCourse_outcome (api : AssignApi) (id : string) (s : AssignState) :
  let assigned :=
    match selectedCourse s with
    | EmptyString => false
    | courseId =>
        match insert_assignment api id courseId false with
        | Normal None => true
        | _ => false
        end
    end in
  match handleAssignCourse api id s with
  | (c, s', t) =>
      c = Normal tt /\
      length (filter is_toast t) = 1 /\
      s' = (if assigned then mkAssignState false "" else s) /\
      (In (InvalidateQueries ["admin-student-courses"; id]) t <-> assigned = true) /\
      (forall u courseId locked,
         In (InsertCourseAssignment u courseId locked) t ->
         u = id /\ courseId = selectedCourse s /\ locked = false /\ courseId <> "")
  end.
Proof.
  cbv zeta. unfold handleAssignCourse, assignCourseMutation.
  destruct s as [shown selected]. cbn [selectedCourse showAssignCourse].
  destruct selected as [|ch rest]; cbn [Js.truthy negb].
  - step_ui. cbn. repeat split; auto; try discriminate;
      intros; intuition discriminate.
  - step_ui.
    destruct (insert_assignment api id (String ch rest) false) as [[msg|]|e]; cbn;
      (split; [reflexivity|]; split; [reflexivity|]; split; [reflexivity|]; split;
       [split; [intros H; decompose [or] H; try discriminate; try contradiction;
                reflexivity
               |intros H; first [discriminate H | tauto]]
       |intros u cid l H; decompose [or] H; try discriminate; try contradiction;
        match goal with
        | E : InsertCourseAssignment _ _ _ = _ |- _ => injection E as <- <- <-
        end; repeat split; discriminate]).
Qed.
